(** * BreatheAware: the inference-and-fusion layer of [flask_app.py]

    A shallow embedding of the two request handlers ([predict_aqi],
    [get_live_aqi]), of the helper [predict_aqi_internal] and of the two
    static tables ([AQI_INFO], the midpoints of [get_aqi_value_from_class]).

    Conventions of the embedding:
    - a parsed JSON document and a response body are values of [jvalue];
      a Python [dict] with string keys is a [gmap string _];
    - a Python float is a value of [pyfloat]: the rational that a finite
      double denotes, or one of the doubles that denote none (the negative
      zero, the two infinities, NaN).  [float] of an integer is the
      correctly rounded double, or [OverflowError]; the product and the
      rounding of doubles, which are not exact, are operations of the
      interpreter and of numpy, and as such fields of [world];
    - a Python exception is a value of [pyexn]; a computation that can raise
      and that calls the collaborators lives in the monad [M], which also
      records the calls in a trace;
    - the collaborators (the loaded classifier and label decoder, the HTTP
      client, the process environment, the clock, the interpreter's text for
      an exception and its grammar of float literals) are parameters, packed
      in the records [artifacts] and [world]. *)

From Stdlib Require Import ZArith QArith Qround Lia Lqa.
From stdpp Require Import gmap strings list fin_maps.

Set Warnings "-register-all".
#[local] Open Scope Z_scope.

(** ** Floats *)

Inductive pyfloat :=
| Fin (q : Q)          (* a finite double other than [-0.0], by its value *)
| NegZero              (* [-0.0] *)
| PosInf               (* [inf] *)
| NegInf               (* [-inf] *)
| NaN.                 (* [nan] *)

(** [x > y] on doubles; it is false as soon as one of them is NaN. *)
Definition float_gt (x y : pyfloat) : bool :=
  match x, y with
  | NaN, _ | _, NaN => false
  | NegInf, _ | _, PosInf => false
  | PosInf, _ | _, NegInf => true
  | Fin a, Fin b => negb (Qle_bool a b)
  | Fin a, NegZero => negb (Qle_bool a 0)
  | NegZero, Fin b => negb (Qle_bool 0 b)
  | NegZero, NegZero => false
  end.


(** ** JSON values *)

Inductive jvalue :=
| JNull
| JBool (b : bool)
| JInt (n : Z)
| JFloat (x : pyfloat)
| JStr (s : string)
| JArr (l : list jvalue)
| JObj (m : gmap string jvalue).

(** The name Python gives to the type of a value. *)
Definition py_type_name (v : jvalue) : string :=
  match v with
  | JNull => "NoneType"
  | JBool _ => "bool"
  | JInt _ => "int"
  | JFloat _ => "float"
  | JStr _ => "str"
  | JArr _ => "list"
  | JObj _ => "dict"
  end.

(** ** Exceptions *)

Inductive pyexn :=
| KeyError (k : jvalue)
| IndexError
| TypeError_not_container (ty : string)   (* [x in v], [v] not iterable *)
| TypeError_subscript (ty : string)       (* [v[k]], [v] without such items *)
| TypeError_float (ty : string)           (* [float(v)], [v] neither str nor number *)
| ValueError_float (s : string)           (* [float(s)], [s] not a float literal *)
| OverflowError_float (n : Z)             (* [float(n)], [n] beyond the doubles *)
| ValueError_empty_max                    (* [max] of an empty sequence *)
| AttributeError (ty attr : string)       (* attribute [attr] on a value of type [ty] *)
| Raised (msg : string).                  (* raised inside a collaborator *)

(** ** numpy arrays, as nested sequences *)

Inductive nd :=
| Scalar (x : pyfloat)
| Arr (l : list nd).

Fixpoint ndim (x : nd) : nat :=
  match x with
  | Scalar _ => O
  | Arr l => S (match l with [] => O | y :: _ => ndim y end)
  end.

(** [np.array([pollutants])]: one row. *)
Definition np_array_row (pollutants : list pyfloat) : nd :=
  Arr [Arr (Scalar <$> pollutants)].

(** ** Collaborators *)

Record classifier := {
  predict : nd → pyexn + list Z;
  predict_proba : nd → pyexn + list (list pyfloat)
}.

Record label_decoder := {
  inverse_transform : list Z → pyexn + list string
}.

(** The three globals assigned at start-up; [None] is Python's [None]. *)
Record artifacts := {
  model : option classifier;
  label_encoder : option label_decoder;
  feature_names : option (list string)
}.

Record http_response := {
  status_code : Z;
  json : pyexn + jvalue
}.

Record world := {
  getenv_api_key : option string;              (* os.getenv("OPENWEATHER_API_KEY") *)
  requests_get : string → pyexn + http_response;
  clock_now : string;                          (* datetime.now().isoformat() *)
  parse_float : string → option pyfloat;       (* float literals of the interpreter *)
  float_mul : pyfloat → pyfloat → pyfloat;     (* x * y on doubles *)
  float_round : pyfloat → nat → pyfloat;       (* round(x, ndigits) on doubles *)
  exn_str : pyexn → string                     (* str(e) *)
}.

(** ** Calls recorded in the trace *)

Inductive event :=
| EvFloat (v : jvalue)
| EvPredict (x : nd)
| EvPredictProba (x : nd)
| EvInverseTransform (ys : list Z)
| EvHttpGet (url : string).

Definition is_classifier_event (ev : event) : bool :=
  match ev with
  | EvPredict _ | EvPredictProba _ | EvInverseTransform _ => true
  | _ => false
  end.

Definition is_float_event (ev : event) : bool :=
  match ev with EvFloat _ => true | _ => false end.

(** ** The monad: exceptions over a trace of calls *)

Definition M (A : Type) : Type := list event → (pyexn + A) * list event.

#[global] Instance M_ret : MRet M := λ A x tr, (inr x, tr).

#[global] Instance M_bind : MBind M := λ A B f m tr,
  match m tr with
  | (inl e, tr') => (inl e, tr')
  | (inr a, tr') => f a tr'
  end.

Definition lift {A} (r : pyexn + A) : M A := λ tr, (r, tr).

Definition raise {A} (e : pyexn) : M A := lift (inl e).

Definition emit (ev : event) : M unit := λ tr, (inr tt, tr ++ [ev]).

(** [try: body except Exception as e: handler e], run on an empty trace. *)
Definition try_except {A} (body : M A) (handler : pyexn → A) : A * list event :=
  match body [] with
  | (inr a, tr) => (a, tr)
  | (inl e, tr) => (handler e, tr)
  end.

(** ** Python primitives used by the handlers *)

(** Truth values: [None], the empty list and the empty string are falsy; a
    loaded estimator or encoder is truthy. *)
Definition truthy_obj {A} (o : option A) : bool := bool_decide (is_Some o).

Definition truthy_list {A} (o : option (list A)) : bool :=
  match o with
  | Some (_ :: _) => true
  | _ => false
  end.

Definition truthy_str (o : option string) : bool :=
  match o with
  | Some (String _ _) => true
  | _ => false
  end.

Fixpoint is_substring (p s : string) : bool :=
  String.prefix p s ||
  match s with
  | EmptyString => false
  | String _ s' => is_substring p s'
  end.

Definition is_jstr (k : string) (v : jvalue) : bool :=
  match v with
  | JStr s => bool_decide (s = k)
  | _ => false
  end.

(** [k in v] for a string [k]. *)
Definition py_contains (k : string) (v : jvalue) : pyexn + bool :=
  match v with
  | JObj m => inr (bool_decide (is_Some (m !! k)))
  | JArr l => inr (existsb (is_jstr k) l)
  | JStr s => inr (is_substring k s)
  | _ => inl (TypeError_not_container (py_type_name v))
  end.

(** [v[k]] for a string [k]. *)
Definition py_getitem (v : jvalue) (k : string) : pyexn + jvalue :=
  match v with
  | JObj m =>
      match m !! k with
      | Some x => inr x
      | None => inl (KeyError (JStr k))
      end
  | _ => inl (TypeError_subscript (py_type_name v))
  end.

(** [v[0]].  On a string the result is its first character, here its first
    byte; the handler goes on to subscript it with a string, which fails on
    any string. *)
Definition py_getitem0 (v : jvalue) : pyexn + jvalue :=
  match v with
  | JArr (x :: _) => inr x
  | JArr [] => inl IndexError
  | JStr (String c _) => inr (JStr (String c EmptyString))
  | JStr EmptyString => inl IndexError
  | JObj _ => inl (KeyError (JInt 0))
  | _ => inl (TypeError_subscript (py_type_name v))
  end.

(** [l[0]] on a sequence returned by a collaborator. *)
Definition index0 {A} (l : list A) : pyexn + A :=
  match l with
  | x :: _ => inr x
  | [] => inl IndexError
  end.

(** Nearest integer, ties to the even one. *)
Definition round_half_even (q : Q) : Z :=
  let f := Qfloor q in
  match (q - inject_Z f ?= 1 # 2)%Q with
  | Lt => f
  | Gt => f + 1
  | Eq => if Z.even f then f else f + 1
  end.

(** [float(n)] for an integer: [n] itself when it has at most 53 bits,
    otherwise [n] rounded to 53 significant bits, ties to even; nothing
    ([OverflowError]) when the rounded value reaches [2^1024]. *)
Definition double_of_Z (n : Z) : option Q :=
  let a := Z.abs n in
  if a <? 2 ^ 53 then Some (inject_Z n)
  else
    let e := Z.log2 a - 52 in
    let m := round_half_even (a # Z.to_pos (2 ^ e)) in
    let r := m * 2 ^ e in
    if 2 ^ 1024 <=? r then None else Some (inject_Z (Z.sgn n * r)).

(** [float(v)]. *)
Definition py_float (w : world) (v : jvalue) : pyexn + pyfloat :=
  match v with
  | JInt n =>
      match double_of_Z n with
      | Some q => inr (Fin q)
      | None => inl (OverflowError_float n)
      end
  | JFloat x => inr x
  | JBool b => inr (Fin (if b then 1 else 0))
  | JStr s =>
      match parse_float w s with
      | Some x => inr x
      | None => inl (ValueError_float s)
      end
  | _ => inl (TypeError_float (py_type_name v))
  end.

(** [max(l)]: the candidate is replaced by each element that is greater
    than it. *)
Definition py_max (l : list pyfloat) : pyexn + pyfloat :=
  match l with
  | [] => inl ValueError_empty_max
  | x :: r => inr (fold_left (λ m y, if float_gt y m then y else m) r x)
  end.


(** ** Category catalog *)

Record aqi_meta := {
  emoji : string;
  color : string;
  range : string;
  health_tip : string
}.

Definition AQI_INFO : gmap string aqi_meta :=
  <["Good" := {|
      emoji := "🟢";
      color := "#00E400";
      range := "0-50";
      health_tip := "Air quality is excellent! Perfect for outdoor activities and exercise. 🏃‍♀️" |}]>
  (<["Moderate" := {|
      emoji := "🟡";
      color := "#FFFF00";
      range := "51-100";
      health_tip := "Air quality is acceptable. Sensitive individuals should consider limiting prolonged outdoor exertion. 🚶‍♂️" |}]>
  (<["Unhealthy for Sensitive Groups" := {|
      emoji := "🟠";
      color := "#FF7E00";
      range := "101-150";
      health_tip := "Sensitive groups should reduce outdoor activities. Children and elderly should stay indoors. 🏠" |}]>
  (<["Unhealthy" := {|
      emoji := "🔴";
      color := "#FF0000";
      range := "151-200";
      health_tip := "Everyone should limit outdoor activities. Wear masks when going outside. 😷" |}]>
  (<["Very Unhealthy" := {|
      emoji := "🟣";
      color := "#8F3F97";
      range := "201-300";
      health_tip := "Health alert! Avoid outdoor activities. Keep windows closed and use air purifiers. ⚠️" |}]>
  (<["Hazardous" := {|
      emoji := "🟤";
      color := "#7E0023";
      range := "301+";
      health_tip := "Emergency conditions! Stay indoors at all times. Seek medical attention if needed. 🚨" |}]>
  ∅))))).

(** [d[k]] on a table. *)
Definition table_getitem {V} (d : gmap string V) (k : string) : pyexn + V :=
  match d !! k with
  | Some x => inr x
  | None => inl (KeyError (JStr k))
  end.

(** [AQI_INFO.get(aqi_class, AQI_INFO['Moderate'])]: the default is
    evaluated first, as an argument of the call. *)
Definition AQI_INFO_get (aqi_class : string) : pyexn + aqi_meta :=
  match table_getitem AQI_INFO "Moderate" with
  | inl e => inl e
  | inr dflt => inr (default dflt (AQI_INFO !! aqi_class))
  end.

Definition midpoints : gmap string Z :=
  <["Good" := 25]>
  (<["Moderate" := 75]>
  (<["Unhealthy for Sensitive Groups" := 125]>
  (<["Unhealthy" := 175]>
  (<["Very Unhealthy" := 250]>
  (<["Hazardous" := 350]> ∅))))).

Definition get_aqi_value_from_class (aqi_class : string) : Z :=
  default 100 (midpoints !! aqi_class).

Definition known_labels : list string :=
  ["Good"; "Moderate"; "Unhealthy for Sensitive Groups"; "Unhealthy";
   "Very Unhealthy"; "Hazardous"].

(** ** Start-up: loading the three artifacts

    Any exception while loading leaves all three globals at [None]. *)
Definition load_models (m : pyexn + classifier) (le : pyexn + label_decoder)
    (fn : pyexn + list string) : artifacts :=
  match m, le, fn with
  | inr m, inr le, inr fn =>
      {| model := Some m; label_encoder := Some le; feature_names := Some fn |}
  | _, _, _ =>
      {| model := None; label_encoder := None; feature_names := None |}
  end.

(** ** Responses *)

Record response := {
  status : Z;
  body : jvalue
}.

Definition jsonify (d : gmap string jvalue) : response :=
  {| status := 200; body := JObj d |}.

Definition error_dict (msg : string) : gmap string jvalue :=
  {[ "error" := JStr msg ]}.

(** [return jsonify({'error': msg}), code]. *)
Definition error_response (code : Z) (msg : string) : response :=
  {| status := code; body := JObj (error_dict msg) |}.

(** ** Calls to the collaborators *)

Definition call_predict (a : artifacts) (x : nd) : M (list Z) :=
  match model a with
  | None => raise (AttributeError "NoneType" "predict")
  | Some m => _ ← emit (EvPredict x); lift (predict m x)
  end.

Definition call_predict_proba (a : artifacts) (x : nd) : M (list (list pyfloat)) :=
  match model a with
  | None => raise (AttributeError "NoneType" "predict_proba")
  | Some m => _ ← emit (EvPredictProba x); lift (predict_proba m x)
  end.

Definition call_inverse_transform (a : artifacts) (ys : list Z) : M (list string) :=
  match label_encoder a with
  | None => raise (AttributeError "NoneType" "inverse_transform")
  | Some le => _ ← emit (EvInverseTransform ys); lift (inverse_transform le ys)
  end.

(** [float(data[k])]. *)
Definition float_of (w : world) (data : jvalue) (k : string) : M pyfloat :=
  v ← lift (py_getitem data k);
  _ ← emit (EvFloat v);
  lift (py_float w v).

(** ** Inference

    The dictionary built by [predict_aqi] (lines 109-155) and, with the same
    text, by [predict_aqi_internal] (lines 205-241).  [confidence] is the
    value of [round(confidence, 2)]. *)

Definition success_dict (aqi_class : string) (aqi_value : Z) (confidence : pyfloat)
    (aqi_info : aqi_meta) (pollutants : gmap string jvalue) (timestamp : string)
    : gmap string jvalue :=
  <["success" := JBool true]>
  (<["aqi_class" := JStr aqi_class]>
  (<["aqi_value" := JInt aqi_value]>
  (<["confidence" := JFloat confidence]>
  (<["emoji" := JStr (emoji aqi_info)]>
  (<["color" := JStr (color aqi_info)]>
  (<["range" := JStr (range aqi_info)]>
  (<["health_tip" := JStr (health_tip aqi_info)]>
  (<["pollutants" := JObj pollutants]>
  (<["timestamp" := JStr timestamp]> ∅))))))))).

(** The six readings after coercion, in the order of the feature matrix. *)
Record pollutant_vector := {
  pm25 : pyfloat;
  pm10 : pyfloat;
  no2 : pyfloat;
  so2 : pyfloat;
  co : pyfloat;
  o3 : pyfloat
}.

Definition pollutant_list (p : pollutant_vector) : list pyfloat :=
  [pm25 p; pm10 p; no2 p; so2 p; co p; o3 p].

Definition pollutants_dict (p : pollutant_vector) : gmap string jvalue :=
  <["pm25" := JFloat (pm25 p)]>
  (<["pm10" := JFloat (pm10 p)]>
  (<["no2" := JFloat (no2 p)]>
  (<["so2" := JFloat (so2 p)]>
  (<["co" := JFloat (co p)]>
  (<["o3" := JFloat (o3 p)]> ∅))))).

(** Feature construction: [pollutants = [float(data['pm25']), ...]]. *)
Definition extract_pollutants (w : world) (data : jvalue) : M pollutant_vector :=
  pm25 ← float_of w data "pm25";
  pm10 ← float_of w data "pm10";
  no2 ← float_of w data "no2";
  so2 ← float_of w data "so2";
  co ← float_of w data "co";
  o3 ← float_of w data "o3";
  mret {| pm25 := pm25; pm10 := pm10; no2 := no2; so2 := so2; co := co; o3 := o3 |}.

(** Classification: from [features = np.array([pollutants])] to the
    dictionary.  The second call of [predict_proba] receives [[features]],
    the feature matrix wrapped in a list. *)
Definition classify_features (a : artifacts) (w : world) (p : pollutant_vector)
    : M (gmap string jvalue) :=
  let features := np_array_row (pollutant_list p) in
  prediction ← (ys ← call_predict a features; lift (index0 ys));
  prediction_proba ← (ps ← call_predict_proba a features; lift (index0 ps));
  aqi_class ← (cs ← call_inverse_transform a [prediction]; lift (index0 cs));
  confidence ← (ps ← call_predict_proba a (Arr [features]);
                row ← lift (index0 ps);
                mx ← lift (py_max row);
                mret (float_round w (float_mul w mx (Fin 100)) 1));
  let aqi_value := get_aqi_value_from_class aqi_class in
  aqi_info ← lift (AQI_INFO_get aqi_class);
  mret (success_dict aqi_class aqi_value (float_round w confidence 2) aqi_info
          (pollutants_dict p) (clock_now w)).

Definition prediction_dict (a : artifacts) (w : world) (data : jvalue)
    : M (gmap string jvalue) :=
  p ← extract_pollutants w data;
  classify_features a w p.

(** ** The [/predict] handler *)

Definition required_fields : list string :=
  ["pm25"; "pm10"; "no2"; "so2"; "co"; "o3"].

(** The validation loop: the first field of [fields] that is not in [data]. *)
Fixpoint first_missing (fields : list string) (data : jvalue)
    : pyexn + option string :=
  match fields with
  | [] => inr None
  | field :: rest =>
      match py_contains field data with
      | inl e => inl e
      | inr false => inr (Some field)
      | inr true => first_missing rest data
      end
  end.

Definition models_loaded (a : artifacts) : bool :=
  truthy_obj (model a) && truthy_obj (label_encoder a)
  && truthy_list (feature_names a).

(** [request_json] is what [request.get_json()] gives: the parsed body, or
    the exception Flask raises for a body that is not JSON. *)
Definition predict_aqi (a : artifacts) (w : world)
    (request_json : pyexn + jvalue) : response * list event :=
  try_except
    (if negb (models_loaded a)
     then mret (error_response 500 "ML models not loaded properly")
     else
       data ← lift request_json;
       missing ← lift (first_missing required_fields data);
       match missing with
       | Some field =>
           mret (error_response 400 ("Missing required field: " +:+ field))
       | None =>
           d ← prediction_dict a w data;
           mret (jsonify d)
       end)
    (λ e, error_response 500 ("Prediction failed: " +:+ exn_str w e)).

(** ** The internal helper and the [/live-aqi] handler *)

(** [try: ... except Exception as e: ...] inside a larger computation. *)
Definition catch {A} (body : M A) (handler : pyexn → M A) : M A := λ tr,
  match body tr with
  | (inl e, tr') => handler e tr'
  | (inr x, tr') => (inr x, tr')
  end.

Definition predict_aqi_internal (a : artifacts) (w : world) (data : jvalue)
    : M (gmap string jvalue) :=
  catch (prediction_dict a w data)
    (λ e, mret (error_dict ("Internal prediction failed: " +:+ exn_str w e))).

(** [v.get(k, dflt)]. *)
Definition py_get (v : jvalue) (k : string) (dflt : jvalue) : pyexn + jvalue :=
  match v with
  | JObj m => inr (default dflt (m !! k))
  | _ => inl (AttributeError (py_type_name v) "get")
  end.

(** The renaming of the provider's fields (lines 182-189). *)
Definition prediction_data (pollutants : jvalue) : M (gmap string jvalue) :=
  pm25 ← lift (py_get pollutants "pm2_5" (JInt 0));
  pm10 ← lift (py_get pollutants "pm10" (JInt 0));
  no2 ← lift (py_get pollutants "no2" (JInt 0));
  so2 ← lift (py_get pollutants "so2" (JInt 0));
  co ← lift (py_get pollutants "co" (JInt 0));
  o3 ← lift (py_get pollutants "o3" (JInt 0));
  mret (<["pm25" := pm25]> (<["pm10" := pm10]> (<["no2" := no2]>
       (<["so2" := so2]> (<["co" := co]> (<["o3" := o3]> ∅)))))).

(** [air_data['list'][0]['components']]. *)
Definition air_components (air_data : jvalue) : pyexn + jvalue :=
  match py_getitem air_data "list" with
  | inl e => inl e
  | inr l =>
      match py_getitem0 l with
      | inl e => inl e
      | inr x => py_getitem x "components"
      end
  end.

Definition live_url (key : string) : string :=
  "https://api.openweathermap.org/data/2.5/air_pollution?lat=17.385&lon=78.4867&appid="
  +:+ key.

Definition get_live_aqi (a : artifacts) (w : world) : response * list event :=
  try_except
    (if negb (truthy_str (getenv_api_key w))
     then mret (error_response 500 "OpenWeatherMap API key missing")
     else
       let url := live_url (default "" (getenv_api_key w)) in
       resp ← (_ ← emit (EvHttpGet url); lift (requests_get w url));
       if bool_decide (status_code resp ≠ 200)
       then mret (error_response 500 "Failed to fetch live data")
       else
         air_data ← lift (json resp);
         pollutants ← lift (air_components air_data);
         data ← prediction_data pollutants;
         prediction_response ← predict_aqi_internal a w (JObj data);
         let response_data := <["components" := pollutants]> prediction_response in
         mret (jsonify response_data))
    (λ e, error_response 500 ("Live AQI fetch failed: " +:+ exn_str w e)).

(** ** Concrete collaborators, for evaluating the handlers *)

(** A classifier with scikit-learn's input validation: a two-dimensional
    input gives one answer per row, any other input is refused. *)
Definition demo_proba_row : list pyfloat := [Fin (1 # 8); Fin (3 # 4); Fin (1 # 8)].

Definition rows_of (x : nd) : nat :=
  match x with
  | Arr l => length l
  | Scalar _ => O
  end.

Definition sk_classifier : classifier := {|
  predict x :=
    if bool_decide (ndim x = 2%nat) then inr (replicate (rows_of x) 1)
    else inl (Raised "Found array with dim 3. RandomForestClassifier expected <= 2.");
  predict_proba x :=
    if bool_decide (ndim x = 2%nat) then inr (replicate (rows_of x) demo_proba_row)
    else inl (Raised "Found array with dim 3. RandomForestClassifier expected <= 2.")
|}.

(** A classifier that answers whatever the nesting of its input. *)
Definition lenient_classifier : classifier := {|
  predict x := inr (replicate (rows_of x) 1);
  predict_proba x := inr (replicate (rows_of x) demo_proba_row)
|}.

Definition demo_classes : list string :=
  ["Good"; "Hazardous"; "Moderate"; "Unhealthy";
   "Unhealthy for Sensitive Groups"; "Very Unhealthy"].

Fixpoint decode_all (ys : list Z) : pyexn + list string :=
  match ys with
  | [] => inr []
  | y :: r =>
      match demo_classes !! Z.to_nat y, decode_all r with
      | Some c, inr cs => if bool_decide (0 ≤ y) then inr (c :: cs)
                          else inl (Raised "y contains previously unseen labels")
      | None, _ => inl (Raised "y contains previously unseen labels")
      | _, inl e => inl e
      end
  end.

Definition demo_decoder : label_decoder := {| inverse_transform := decode_all |}.

Definition demo_feature_names : list string :=
  ["pm25"; "pm10"; "no2"; "so2"; "co"; "o3"].

Definition sk_artifacts : artifacts :=
  load_models (inr sk_classifier) (inr demo_decoder) (inr demo_feature_names).

Definition lenient_artifacts : artifacts :=
  load_models (inr lenient_classifier) (inr demo_decoder) (inr demo_feature_names).

Definition failed_artifacts : artifacts :=
  load_models (inl (Raised "No such file or directory")) (inr demo_decoder)
    (inr demo_feature_names).

Definition demo_exn_str (e : pyexn) : string :=
  match e with
  | KeyError (JStr k) => "'" +:+ k +:+ "'"
  | KeyError _ => "0"
  | IndexError => "index out of range"
  | TypeError_not_container ty => "argument of type '" +:+ ty +:+ "' is not iterable"
  | TypeError_subscript ty => "'" +:+ ty +:+ "' object is not subscriptable"
  | TypeError_float ty =>
      "float() argument must be a string or a real number, not '" +:+ ty +:+ "'"
  | ValueError_float s => "could not convert string to float: '" +:+ s +:+ "'"
  | OverflowError_float _ => "int too large to convert to float"
  | ValueError_empty_max => "max() arg is an empty sequence"
  | AttributeError ty attr =>
      "'" +:+ ty +:+ "' object has no attribute '" +:+ attr +:+ "'"
  | Raised msg => msg
  end.

(** An arithmetic for the examples: on finite operands the exact product,
    and the rounding to a multiple of [10^-ndigits], ties to even; zeros
    and infinities keep their sign, and NaN stays NaN.  On the doubles of
    the examples, which are small dyadic numbers and their multiples by
    100, it is the arithmetic of doubles. *)
Definition float_negative (x : pyfloat) : bool :=
  match x with
  | Fin q => negb (Qle_bool 0 q)
  | NegZero | NegInf => true
  | PosInf | NaN => false
  end.

Definition float_is_zero (x : pyfloat) : bool :=
  match x with
  | Fin q => Qeq_bool q 0
  | NegZero => true
  | _ => false
  end.

Definition float_is_inf (x : pyfloat) : bool :=
  match x with
  | PosInf | NegInf => true
  | _ => false
  end.

Definition signed_zero (negative : bool) : pyfloat :=
  if negative then NegZero else Fin 0.

Definition signed_inf (negative : bool) : pyfloat :=
  if negative then NegInf else PosInf.

Definition demo_mul (x y : pyfloat) : pyfloat :=
  let negative := xorb (float_negative x) (float_negative y) in
  match x, y with
  | NaN, _ | _, NaN => NaN
  | _, _ =>
      if float_is_inf x || float_is_inf y then
        if float_is_zero x || float_is_zero y then NaN else signed_inf negative
      else if float_is_zero x || float_is_zero y then signed_zero negative
      else
        match x, y with
        | Fin a, Fin b => Fin (Qred (a * b))
        | _, _ => NaN
        end
  end.

Definition demo_round (x : pyfloat) (ndigits : nat) : pyfloat :=
  match x with
  | Fin q =>
      let scale := Z.to_pos (10 ^ Z.of_nat ndigits) in
      let n := round_half_even (q * inject_Z (Z.pos scale)) in
      if n =? 0 then signed_zero (float_negative x) else Fin (Qred (n # scale))
  | _ => x
  end.

Definition demo_parse_float (s : string) : option pyfloat :=
  if bool_decide (s = "12.5") then Some (Fin (25 # 2))
  else if bool_decide (s = "7") then Some (Fin 7)
  else if bool_decide (s = "-0.0") then Some NegZero
  else if bool_decide (s = "inf") then Some PosInf
  else if bool_decide (s = "-inf") then Some NegInf
  else if bool_decide (s = "nan") then Some NaN
  else None.

(** The components of the specification's example.  The reading 0.3 is
    written as the fraction 3/10; the examples pass it on and compute nothing
    with it. *)
Definition demo_components : gmap string jvalue :=
  <["pm2_5" := JInt 10]> (<["pm10" := JInt 20]> (<["no2" := JInt 5]>
  (<["so2" := JInt 1]> (<["co" := JFloat (Fin (3 # 10))]> (<["o3" := JInt 15]> ∅))))).

Definition demo_air_data (components : gmap string jvalue) : jvalue :=
  JObj {[ "list" := JArr [JObj {[ "components" := JObj components ]}] ]}.

Definition demo_world (key : option string) (code : Z) : world := {|
  getenv_api_key := key;
  requests_get := λ _, inr {| status_code := code;
                              json := inr (demo_air_data demo_components) |};
  clock_now := "2024-05-01T12:00:00.000000";
  parse_float := demo_parse_float;
  float_mul := demo_mul;
  float_round := demo_round;
  exn_str := demo_exn_str
|}.

Definition demo_vector : gmap string jvalue :=
  <["pm25" := JInt 10]> (<["pm10" := JInt 20]> (<["no2" := JInt 5]>
  (<["so2" := JInt 1]> (<["co" := JFloat (Fin (3 # 10))]> (<["o3" := JInt 15]> ∅))))).


Definition demo_bad_vector : gmap string jvalue :=
  <["pm25" := JStr "abc"]> demo_vector.

(** A decoder whose classes are not those of the catalog. *)
Definition odd_decoder : label_decoder :=
  {| inverse_transform := λ ys, inr (replicate (length ys) "Severe") |}.

Definition odd_artifacts : artifacts :=
  load_models (inr lenient_classifier) (inr odd_decoder) (inr demo_feature_names).

(** A request body that is a list of the six names. *)
Definition demo_list_body : jvalue :=
  JArr [JStr "pm25"; JStr "pm10"; JStr "no2"; JStr "so2"; JStr "co"; JStr "o3"].

(** A world with the key [k] and a given HTTP client. *)
Definition client_world (get : string → pyexn + http_response) : world := {|
  getenv_api_key := Some "k";
  requests_get := get;
  clock_now := "2024-05-01T12:00:00.000000";
  parse_float := demo_parse_float;
  float_mul := demo_mul;
  float_round := demo_round;
  exn_str := demo_exn_str
|}.

Definition answer_200 (payload : pyexn + jvalue) : string → pyexn + http_response :=
  λ _, inr {| status_code := 200; json := payload |}.

(** The provider's example with [co] present and [null]. *)
Definition demo_null_components : gmap string jvalue :=
  <["co" := JNull]> demo_components.

(** The names of the six fields in the provider's payload. *)
Definition provider_fields : list string :=
  ["pm2_5"; "pm10"; "no2"; "so2"; "co"; "o3"].

(** ** Vocabulary of the statements *)

(** The exception of [float(v)] when it raises: made from the value. *)
Definition float_exn (v : jvalue) : pyexn :=
  match v with
  | JStr s => ValueError_float s
  | JInt n => OverflowError_float n
  | _ => TypeError_float (py_type_name v)
  end.


Definition moderate_meta : aqi_meta := {|
  emoji := "🟡";
  color := "#FFFF00";
  range := "51-100";
  health_tip := "Air quality is acceptable. Sensitive individuals should consider limiting prolonged outdoor exertion. 🚶‍♂️" |}.

#[global] Instance aqi_meta_eq_dec : EqDecision aqi_meta.
Proof. solve_decision. Defined.

Definition meta_nonempty (r : aqi_meta) : Prop :=
  emoji r ≠ "" ∧ color r ≠ "" ∧ range r ≠ "" ∧ health_tip r ≠ "".

Definition is_4xx (r : response) : Prop := 400 ≤ status r < 500.

Definition is_5xx (r : response) : Prop := 500 ≤ status r < 600.

(** The same world at another reading of the clock. *)
Definition with_clock (w : world) (t : string) : world := {|
  getenv_api_key := getenv_api_key w;
  requests_get := requests_get w;
  clock_now := t;
  parse_float := parse_float w;
  float_mul := float_mul w;
  float_round := float_round w;
  exn_str := exn_str w
|}.


(** The canonical vector in the words of the specification: [pm2_5] of the
    provider becomes [pm25], the other five fields keep their name, and a
    field the provider left out is 0. *)
Definition canonical_vector (components : gmap string jvalue) : gmap string jvalue :=
  list_to_map
    [("pm25", default (JInt 0) (components !! "pm2_5"));
     ("pm10", default (JInt 0) (components !! "pm10"));
     ("no2", default (JInt 0) (components !! "no2"));
     ("so2", default (JInt 0) (components !! "so2"));
     ("co", default (JInt 0) (components !! "co"));
     ("o3", default (JInt 0) (components !! "o3"))].

(** The input validation of a scikit-learn estimator: an input that is not
    two-dimensional is refused with an exception. *)
Definition accepts_only_2d (c : classifier) : Prop :=
  ∀ x, ndim x ≠ 2%nat → ∃ e, predict_proba c x = inl e.

(** Start-up with at least one artifact that could not be loaded. *)
Definition load_failed (m : pyexn + classifier) (le : pyexn + label_decoder)
    (fn : pyexn + list string) : Prop :=
  (∃ e, m = inl e) ∨ (∃ e, le = inl e) ∨ (∃ e, fn = inl e).

(** The field [g] of the object [m] holds a value that [float] accepts. *)
Definition coercible_at (w : world) (m : gmap string jvalue) (g : string) : Prop :=
  ∃ v q, m !! g = Some v ∧ py_float w v = inr q.

(** The calls [tr] are the coercions of the values that [m] holds under the
    fields [fields], one for each field and in their order. *)
Definition coerced_in_order (m : gmap string jvalue) (fields : list string)
    (tr : list event) : Prop :=
  Forall2 (λ g ev, ∃ x, m !! g = Some x ∧ ev = EvFloat x) fields tr.

(** The confidence of the dictionary: [round(round(mx * 100, 1), 2)]. *)
Definition reported_confidence (w : world) (mx : pyfloat) : pyfloat :=
  float_round w (float_round w (float_mul w mx (Fin 100)) 1) 2.



(** A body that is one [error] entry. *)
Definition is_error_body (b : jvalue) : Prop :=
  ∃ msg, b = JObj (error_dict msg).


Definition is_object (v : jvalue) : bool :=
  match v with JObj _ => true | _ => false end.

(** * Properties *)

(** ** The two tables *)

Ltac unknown_label H :=
  repeat (apply not_elem_of_cons in H; destruct H as [? H]).

Lemma AQI_INFO_unknown (l : string) :
  l ∉ known_labels → AQI_INFO !! l = None.
Proof.
  intros H. unknown_label H.
  unfold AQI_INFO. rewrite !lookup_insert_ne by done. apply lookup_empty.
Qed.

Lemma midpoints_unknown (l : string) :
  l ∉ known_labels → midpoints !! l = None.
Proof.
  intros H. unknown_label H.
  unfold midpoints. rewrite !lookup_insert_ne by done. apply lookup_empty.
Qed.

Lemma AQI_INFO_Moderate : table_getitem AQI_INFO "Moderate" = inr moderate_meta.
Proof. reflexivity. Qed.

Lemma AQI_INFO_get_total (l : string) : ∃ r, AQI_INFO_get l = inr r.
Proof. unfold AQI_INFO_get. rewrite AQI_INFO_Moderate. eauto. Qed.

(** C5. The catalog lookup [AQI_INFO.get(label, AQI_INFO['Moderate'])] never
    raises; on each of the six known labels it returns the record stored
    under that label, whose four fields are non-empty and which differs from
    the records of the other five labels; on every other label it returns
    the record of [Moderate].  The lookup depends on the label alone. *)
Theorem catalog_lookup_total :
  (∀ l, ∃ r, AQI_INFO_get l = inr r) ∧
  Forall (λ l, ∃ r, AQI_INFO !! l = Some r ∧ AQI_INFO_get l = inr r
                    ∧ meta_nonempty r) known_labels ∧
  NoDup ((AQI_INFO !!.) <$> known_labels) ∧
  (∀ l, l ∉ known_labels → AQI_INFO_get l = inr moderate_meta) ∧
  AQI_INFO_get "Moderate" = inr moderate_meta.
Proof.
  split; [| split; [| split; [| split]]].
  - apply AQI_INFO_get_total.
  - unfold known_labels, meta_nonempty.
    repeat (apply Forall_cons; split;
            [eexists; split; [reflexivity | split; [reflexivity | ]];
             cbn; repeat split; discriminate | ]).
    apply Forall_nil_2.
  - compute_done.
  - intros l H. unfold AQI_INFO_get. rewrite AQI_INFO_Moderate.
    by rewrite (AQI_INFO_unknown l H).
  - reflexivity.
Qed.

(** C6. [get_aqi_value_from_class] returns 25, 75, 125, 175, 250 and 350 on
    the six labels and 100 on every other label; it is a function of the
    label alone. *)
Theorem midpoint_values :
  get_aqi_value_from_class "Good" = 25 ∧
  get_aqi_value_from_class "Moderate" = 75 ∧
  get_aqi_value_from_class "Unhealthy for Sensitive Groups" = 125 ∧
  get_aqi_value_from_class "Unhealthy" = 175 ∧
  get_aqi_value_from_class "Very Unhealthy" = 250 ∧
  get_aqi_value_from_class "Hazardous" = 350 ∧
  (∀ l, l ∉ known_labels → get_aqi_value_from_class l = 100).
Proof.
  repeat (split; [reflexivity |]).
  intros l H. unfold get_aqi_value_from_class.
  by rewrite (midpoints_unknown l H).
Qed.

(** ** Validation of the request of [/predict] *)

Lemma first_missing_some (fields : list string) (m : gmap string jvalue) (k : string) :
  k ∈ fields → m !! k = None →
  ∃ field, field ∈ fields ∧ m !! field = None ∧
           first_missing fields (JObj m) = inr (Some field).
Proof.
  induction fields as [|f rest IH]; intros Hin Hk.
  - by apply elem_of_nil in Hin.
  - cbn. destruct (m !! f) as [v|] eqn:Hf.
    + rewrite bool_decide_eq_true_2 by eauto.
      apply elem_of_cons in Hin as [->|Hin]; [congruence |].
      destruct (IH Hin Hk) as (field & ? & ? & ?).
      exists field. repeat split; [by apply list_elem_of_further | done | done].
    + rewrite bool_decide_eq_false_2 by (intros [? ?]; congruence).
      exists f. repeat split; [apply list_elem_of_here | done].
Qed.

Lemma first_missing_none (fields : list string) (m : gmap string jvalue) :
  (∀ k, k ∈ fields → is_Some (m !! k)) →
  first_missing fields (JObj m) = inr None.
Proof.
  induction fields as [|f rest IH]; intros H; [done |].
  cbn. rewrite bool_decide_eq_true_2 by (apply H, list_elem_of_here).
  apply IH. intros k Hk. by apply H, list_elem_of_further.
Qed.

(** C2. With the artifacts loaded, a request object that lacks one of the
    six required keys is answered with status 400 and the message
    [Missing required field: f], where [f] is a required key that the object
    lacks (the first one in the order pm25, pm10, no2, so2, co, o3, hence the
    missing key itself when only one is missing).  The trace is empty: no
    value was coerced and the classifier was not called, whatever the values
    of the keys that are present. *)
Theorem predict_aqi_missing_field (a : artifacts) (w : world)
    (m : gmap string jvalue) (k : string) :
  models_loaded a = true →
  k ∈ required_fields → m !! k = None →
  ∃ field,
    field ∈ required_fields ∧ m !! field = None ∧
    ((∀ k', k' ∈ required_fields → m !! k' = None → k' = k) → field = k) ∧
    predict_aqi a w (inr (JObj m))
    = (error_response 400 ("Missing required field: " +:+ field), []).
Proof.
  intros Hload Hin Hk.
  destruct (first_missing_some required_fields m k Hin Hk)
    as (field & Hfin & Hfk & Hfm).
  exists field. repeat split; [done | done | by intros Huniq; apply Huniq |].
  unfold predict_aqi, try_except. rewrite Hload. cbn -[first_missing required_fields].
  unfold mbind, M_bind, lift. by rewrite Hfm.
Qed.

Lemma predict_aqi_missing_field_witness :
  predict_aqi sk_artifacts (demo_world None 200)
    (inr (JObj (<["pm10" := JStr "abc"]> (delete "co" demo_vector))))
  = (error_response 400 "Missing required field: co", []).
Proof.
  destruct (predict_aqi_missing_field sk_artifacts (demo_world None 200)
              (<["pm10" := JStr "abc"]> (delete "co" demo_vector)) "co")
    as (field & Hin & Hnone & Huniq & Heq).
  - reflexivity.
  - compute_done.
  - reflexivity.
  - assert (field = "co") as ->; [| exact Heq].
    apply Huniq. intros k' Hk' Hm.
    unfold required_fields in Hk'.
    repeat (apply elem_of_cons in Hk' as [->|Hk']; [try done; by vm_compute in Hm |]).
    by apply elem_of_nil in Hk'.
Defined.

(** ** Rounding and maxima *)



Lemma round_half_even_Z (q : Q) (n : Z) :
  (q == inject_Z n)%Q → round_half_even q = n.
Proof.
  intros H. unfold round_half_even.
  assert (Qfloor q = n) as Hf by (rewrite H; apply Qfloor_Z).
  rewrite Hf.
  assert ((q - inject_Z n ?= 1 # 2)%Q = Lt) as ->; [| done].
  apply (proj1 (Qlt_alt _ _)). lra.
Qed.








(** ** Running the handlers *)

Lemma float_of_obj (w : world) (m : gmap string jvalue) (k : string) (v : jvalue)
    (tr : list event) :
  m !! k = Some v →
  float_of w (JObj m) k tr = (py_float w v, tr ++ [EvFloat v]).
Proof.
  intros H. unfold float_of, mbind, M_bind, lift, emit. cbn. by rewrite H.
Qed.

(** After validation, the handler is the inference wrapped in its
    [try]/[except]. *)
Lemma predict_aqi_validated (a : artifacts) (w : world) (m : gmap string jvalue) :
  models_loaded a = true →
  (∀ k, k ∈ required_fields → is_Some (m !! k)) →
  predict_aqi a w (inr (JObj m))
  = match prediction_dict a w (JObj m) [] with
    | (inr d, tr) => (jsonify d, tr)
    | (inl e, tr) =>
        (error_response 500 ("Prediction failed: " +:+ exn_str w e), tr)
    end.
Proof.
  intros Hload Hall. unfold predict_aqi, try_except. rewrite Hload.
  cbn -[first_missing required_fields prediction_dict].
  unfold mbind, M_bind, lift.
  rewrite (first_missing_none _ _ Hall).
  by destruct (prediction_dict a w (JObj m) []) as [[e|d] tr].
Qed.

Lemma required_fields_present (m : gmap string jvalue) :
  (∀ k, k ∈ required_fields → is_Some (m !! k)) →
  ∃ v1 v2 v3 v4 v5 v6,
    m !! "pm25" = Some v1 ∧ m !! "pm10" = Some v2 ∧ m !! "no2" = Some v3 ∧
    m !! "so2" = Some v4 ∧ m !! "co" = Some v5 ∧ m !! "o3" = Some v6.
Proof.
  intros H.
  destruct (H "pm25") as [v1 ?]; [compute_done |].
  destruct (H "pm10") as [v2 ?]; [compute_done |].
  destruct (H "no2") as [v3 ?]; [compute_done |].
  destruct (H "so2") as [v4 ?]; [compute_done |].
  destruct (H "co") as [v5 ?]; [compute_done |].
  destruct (H "o3") as [v6 ?]; [compute_done |].
  by exists v1, v2, v3, v4, v5, v6.
Qed.

(** Feature construction on a request object that has the six keys: the
    values are coerced in the order of [required_fields], and the first one
    that [float] refuses ends the construction with [float]'s exception. *)
Lemma extract_pollutants_obj (w : world) (m : gmap string jvalue)
    (v1 v2 v3 v4 v5 v6 : jvalue) (tr : list event) :
  m !! "pm25" = Some v1 → m !! "pm10" = Some v2 → m !! "no2" = Some v3 →
  m !! "so2" = Some v4 → m !! "co" = Some v5 → m !! "o3" = Some v6 →
  extract_pollutants w (JObj m) tr
  = match py_float w v1 with
    | inl e => (inl e, tr ++ [EvFloat v1])
    | inr q1 =>
    match py_float w v2 with
    | inl e => (inl e, tr ++ [EvFloat v1; EvFloat v2])
    | inr q2 =>
    match py_float w v3 with
    | inl e => (inl e, tr ++ [EvFloat v1; EvFloat v2; EvFloat v3])
    | inr q3 =>
    match py_float w v4 with
    | inl e => (inl e, tr ++ [EvFloat v1; EvFloat v2; EvFloat v3; EvFloat v4])
    | inr q4 =>
    match py_float w v5 with
    | inl e => (inl e, tr ++ [EvFloat v1; EvFloat v2; EvFloat v3; EvFloat v4;
                              EvFloat v5])
    | inr q5 =>
    match py_float w v6 with
    | inl e => (inl e, tr ++ [EvFloat v1; EvFloat v2; EvFloat v3; EvFloat v4;
                              EvFloat v5; EvFloat v6])
    | inr q6 =>
        (inr {| pm25 := q1; pm10 := q2; no2 := q3; so2 := q4; co := q5; o3 := q6 |},
         tr ++ [EvFloat v1; EvFloat v2; EvFloat v3; EvFloat v4; EvFloat v5;
                EvFloat v6])
    end end end end end end.
Proof.
  intros H1 H2 H3 H4 H5 H6. unfold extract_pollutants.
  unfold mbind at 1, M_bind at 1. rewrite (float_of_obj _ _ _ _ _ H1).
  destruct (py_float w v1) as [e|q1]; [done |].
  unfold mbind at 1, M_bind at 1. rewrite (float_of_obj _ _ _ _ _ H2).
  destruct (py_float w v2) as [e|q2]; [by rewrite <- !app_assoc |].
  unfold mbind at 1, M_bind at 1. rewrite (float_of_obj _ _ _ _ _ H3).
  destruct (py_float w v3) as [e|q3]; [by rewrite <- !app_assoc |].
  unfold mbind at 1, M_bind at 1. rewrite (float_of_obj _ _ _ _ _ H4).
  destruct (py_float w v4) as [e|q4]; [by rewrite <- !app_assoc |].
  unfold mbind at 1, M_bind at 1. rewrite (float_of_obj _ _ _ _ _ H5).
  destruct (py_float w v5) as [e|q5]; [by rewrite <- !app_assoc |].
  unfold mbind at 1, M_bind at 1. rewrite (float_of_obj _ _ _ _ _ H6).
  destruct (py_float w v6) as [e|q6]; [by rewrite <- !app_assoc |].
  cbn. by rewrite <- !app_assoc.
Qed.

(** ** Values that are not numbers *)

Lemma py_float_exn (w : world) (v : jvalue) (e : pyexn) :
  py_float w v = inl e → e = float_exn v.
Proof.
  destruct v as [| |n| |s| |]; cbn; try congruence.
  - destruct (double_of_Z n); congruence.
  - destruct (parse_float w s); congruence.
Qed.

Ltac all_coercible :=
  repeat first
    [ apply Forall_nil_2
    | apply Forall_cons_2; [eexists _, _; split; eassumption |] ].

Ltac first_refused pre k post evs :=
  exists pre, k, post; eexists _; exists evs;
  split; [reflexivity |];
  split; [all_coercible |];
  split; [eassumption |];
  split; [eassumption |];
  split; [reflexivity |];
  unfold coerced_in_order;
  repeat first
    [ apply Forall2_nil_2
    | apply Forall2_cons_2; [eexists; split; [eassumption | reflexivity] |] ].

Lemma coerced_in_order_float_events (m : gmap string jvalue)
    (fields : list string) (tr : list event) :
  coerced_in_order m fields tr → Forall (λ ev, is_float_event ev = true) tr.
Proof.
  induction 1 as [|g ev fields tr (x & _ & ->) _ IH]; by constructor.
Qed.

(** On an object that has the six keys, feature construction stops at the
    first field, in the order of [required_fields], whose value [float]
    refuses, with [float]'s exception and after the coercions of the fields
    before it; when it does not stop, every field was accepted. *)
Lemma extract_pollutants_first_refused (w : world) (m : gmap string jvalue)
    (tr : list event) :
  (∀ k, k ∈ required_fields → is_Some (m !! k)) →
  match extract_pollutants w (JObj m) tr with
  | (inl e, tr') =>
      ∃ pre k post v evs,
        required_fields = pre ++ k :: post ∧
        Forall (coercible_at w m) pre ∧
        m !! k = Some v ∧ py_float w v = inl e ∧
        tr' = tr ++ evs ++ [EvFloat v] ∧
        coerced_in_order m pre evs
  | (inr p, tr') => Forall (coercible_at w m) required_fields
  end.
Proof.
  intros Hall.
  destruct (required_fields_present m Hall)
    as (v1 & v2 & v3 & v4 & v5 & v6 & H1 & H2 & H3 & H4 & H5 & H6).
  rewrite (extract_pollutants_obj w m v1 v2 v3 v4 v5 v6 tr H1 H2 H3 H4 H5 H6).
  unfold coercible_at.
  destruct (py_float w v1) as [e|q1] eqn:E1;
    [first_refused (@nil string) "pm25" ["pm10"; "no2"; "so2"; "co"; "o3"]
       (@nil event) |].
  destruct (py_float w v2) as [e|q2] eqn:E2;
    [first_refused ["pm25"] "pm10" ["no2"; "so2"; "co"; "o3"] [EvFloat v1] |].
  destruct (py_float w v3) as [e|q3] eqn:E3;
    [first_refused ["pm25"; "pm10"] "no2" ["so2"; "co"; "o3"]
       [EvFloat v1; EvFloat v2] |].
  destruct (py_float w v4) as [e|q4] eqn:E4;
    [first_refused ["pm25"; "pm10"; "no2"] "so2" ["co"; "o3"]
       [EvFloat v1; EvFloat v2; EvFloat v3] |].
  destruct (py_float w v5) as [e|q5] eqn:E5;
    [first_refused ["pm25"; "pm10"; "no2"; "so2"] "co" ["o3"]
       [EvFloat v1; EvFloat v2; EvFloat v3; EvFloat v4] |].
  destruct (py_float w v6) as [e|q6] eqn:E6;
    [first_refused ["pm25"; "pm10"; "no2"; "so2"; "co"] "o3" (@nil string)
       [EvFloat v1; EvFloat v2; EvFloat v3; EvFloat v4; EvFloat v5] |].
  unfold required_fields. all_coercible.
Qed.

(** C4, as amended. With the artifacts loaded and the six keys present, if
    some value is refused by [float], the handler answers with status 500 (not
    a 4xx) and the message [Prediction failed: ] followed by the text of the
    exception that [float] raised for the first refused value in the order
    of [required_fields]: every field before it was coerced, and nothing
    after it was looked at.  That exception is made from the value (the
    string, the integer too large for a double, the type of any other
    value), not from the name of the field.  Only coercions were attempted
    before: the classifier was not called. *)
Theorem predict_aqi_coercion_failure (a : artifacts) (w : world)
    (m : gmap string jvalue) :
  models_loaded a = true →
  (∀ k, k ∈ required_fields → is_Some (m !! k)) →
  (∃ k v e, k ∈ required_fields ∧ m !! k = Some v ∧ py_float w v = inl e) →
  ∃ pre k post v tr,
    required_fields = pre ++ k :: post ∧
    Forall (coercible_at w m) pre ∧
    m !! k = Some v ∧
    py_float w v = inl (float_exn v) ∧
    predict_aqi a w (inr (JObj m))
    = (error_response 500 ("Prediction failed: " +:+ exn_str w (float_exn v)),
       tr ++ [EvFloat v]) ∧
    is_5xx (predict_aqi a w (inr (JObj m))).1 ∧
    coerced_in_order m pre tr ∧
    Forall (λ ev, is_float_event ev = true) tr.
Proof.
  intros Hload Hall (k0 & v0 & e0 & Hk0 & Hv0 & He0).
  rewrite (predict_aqi_validated a w m Hload Hall).
  unfold prediction_dict, mbind, M_bind.
  pose proof (extract_pollutants_first_refused w m [] Hall) as Hfr.
  destruct (extract_pollutants w (JObj m) []) as [[e|p] tr'].
  - destruct Hfr as (pre & k & post & v & evs & Hsplit & Hpre & Hv & Hf & -> & Hevs).
    apply py_float_exn in Hf as He. subst e.
    exists pre, k, post, v, evs. cbn.
    repeat (split; [done |]). exact (coerced_in_order_float_events m pre evs Hevs).
  - exfalso.
    destruct (proj1 (Forall_forall _ _) Hfr k0 Hk0) as (v' & q & Hv' & Hq).
    congruence.
Qed.

Lemma predict_aqi_coercion_failure_witness :
  ∃ pre k post v tr,
    required_fields = pre ++ k :: post ∧
    Forall (coercible_at (demo_world None 200) demo_bad_vector) pre ∧
    demo_bad_vector !! k = Some v ∧
    py_float (demo_world None 200) v = inl (float_exn v) ∧
    predict_aqi sk_artifacts (demo_world None 200) (inr (JObj demo_bad_vector))
    = (error_response 500 ("Prediction failed: " +:+ demo_exn_str (float_exn v)),
       tr ++ [EvFloat v]) ∧
    is_5xx (predict_aqi sk_artifacts (demo_world None 200)
              (inr (JObj demo_bad_vector))).1 ∧
    coerced_in_order demo_bad_vector pre tr ∧
    Forall (λ ev, is_float_event ev = true) tr.
Proof.
  apply (predict_aqi_coercion_failure sk_artifacts (demo_world None 200)
           demo_bad_vector).
  - reflexivity.
  - intros k Hk. unfold required_fields in Hk.
    repeat (apply elem_of_cons in Hk as [->|Hk]; [compute_done |]).
    by apply elem_of_nil in Hk.
  - exists "pm25", (JStr "abc"), (ValueError_float "abc").
    split; [compute_done | split; reflexivity].
Defined.

(** The first refused value is the one reported: with an integer too large
    for a double under [pm25] and a string that is no number under [pm10],
    the message is that of the overflow, after one coercion. *)
Lemma predict_aqi_overflow_run :
  predict_aqi sk_artifacts (demo_world None 200)
    (inr (JObj (<["pm25" := JInt (10 ^ 400)]> (<["pm10" := JStr "abc"]> demo_vector))))
  = (error_response 500 "Prediction failed: int too large to convert to float",
     [EvFloat (JInt (10 ^ 400))]).
Proof. vm_compute. reflexivity. Qed.

(** C4 does not hold as a 4xx: the six keys are present, [pm25] holds the
    string [abc], and the answer is a 500 whose message quotes the value. *)
Lemma predict_aqi_coercion_not_4xx :
  (∀ k, k ∈ required_fields → is_Some (demo_bad_vector !! k)) ∧
  py_float (demo_world None 200) (JStr "abc") = inl (ValueError_float "abc") ∧
  predict_aqi sk_artifacts (demo_world None 200) (inr (JObj demo_bad_vector))
  = (error_response 500
       "Prediction failed: could not convert string to float: 'abc'",
     [EvFloat (JStr "abc")]) ∧
  ¬ is_4xx (predict_aqi sk_artifacts (demo_world None 200)
              (inr (JObj demo_bad_vector))).1.
Proof.
  split; [| split; [| split]].
  - intros k Hk. unfold required_fields in Hk.
    repeat (apply elem_of_cons in Hk as [->|Hk]; [compute_done |]).
    by apply elem_of_nil in Hk.
  - reflexivity.
  - vm_compute. reflexivity.
  - intros [_ H]. vm_compute in H. discriminate.
Qed.

(** ** Classification *)

Lemma ndim_features (p : pollutant_vector) :
  ndim (np_array_row (pollutant_list p)) = 2%nat ∧
  ndim (Arr [np_array_row (pollutant_list p)]) = 3%nat.
Proof. split; reflexivity. Qed.

Lemma classify_features_no_model (a : artifacts) (w : world)
    (p : pollutant_vector) (tr : list event) :
  model a = None →
  classify_features a w p tr = (inl (AttributeError "NoneType" "predict"), tr).
Proof.
  intros H. unfold classify_features, call_predict, mbind, M_bind.
  by rewrite H.
Qed.

(** With a classifier that refuses inputs that are not two-dimensional, the
    classification always ends with an exception: the call of line 129
    (line 219 in the helper) passes a three-dimensional input. *)
Lemma classify_features_rejected (a : artifacts) (w : world) (c : classifier)
    (p : pollutant_vector) (tr : list event) :
  model a = Some c → accepts_only_2d c →
  ∃ e tr', classify_features a w p tr = (inl e, tr').
Proof.
  intros Hm Hacc.
  destruct (Hacc (Arr [np_array_row (pollutant_list p)])) as [e3 He3];
    [rewrite (proj2 (ndim_features p)); lia |].
  unfold classify_features, call_predict, call_predict_proba,
    call_inverse_transform, mbind, M_bind, lift, emit, raise, lift.
  rewrite Hm, He3.
  destruct (predict c _) as [?|[|y ys]]; cbn; eauto.
  destruct (predict_proba c (np_array_row _)) as [?|[|r rs]]; cbn; eauto.
  destruct (label_encoder a) as [le|]; cbn; eauto.
  destruct (inverse_transform le [y]) as [?|[|l ls]]; cbn; eauto.
Qed.

(** What the classification returns when every call succeeds, the one of
    line 129 included: the confidence is the greatest entry of the first row
    returned for [[features]], as a percentage rounded to one place. *)
Lemma classify_features_success (a : artifacts) (w : world) (c : classifier)
    (le : label_decoder) (p : pollutant_vector) (tr : list event)
    (y : Z) (ys : list Z) (r0 : list pyfloat) (rs0 : list (list pyfloat))
    (l : string) (ls : list string) (row : list pyfloat) (rows : list (list pyfloat)) (mx : pyfloat) :
  let features := np_array_row (pollutant_list p) in
  model a = Some c → label_encoder a = Some le →
  predict c features = inr (y :: ys) →
  predict_proba c features = inr (r0 :: rs0) →
  inverse_transform le [y] = inr (l :: ls) →
  predict_proba c (Arr [features]) = inr (row :: rows) →
  py_max row = inr mx →
  ∃ info,
    AQI_INFO_get l = inr info ∧
    classify_features a w p tr
    = (inr (success_dict l (get_aqi_value_from_class l) (reported_confidence w mx)
              info (pollutants_dict p) (clock_now w)),
       tr ++ [EvPredict features; EvPredictProba features;
              EvInverseTransform [y]; EvPredictProba (Arr [features])]).
Proof.
  intros features Hm Hle Hp Hpp Hinv Hpp3 Hmax.
  destruct (AQI_INFO_get_total l) as [info Hinfo].
  exists info. split; [done |].
  unfold classify_features, call_predict, call_predict_proba,
    call_inverse_transform, mbind, M_bind, lift, emit, raise, lift.
  fold features. rewrite Hm, Hle, Hp. cbn -[py_max AQI_INFO_get].
  rewrite Hpp. cbn -[py_max AQI_INFO_get].
  rewrite Hinv. cbn -[py_max AQI_INFO_get].
  rewrite Hpp3. cbn -[py_max AQI_INFO_get].
  rewrite Hmax, Hinfo. cbn. by rewrite <- !app_assoc.
Qed.



(** ** The confidence of [/predict] *)

(** C1. With a classifier that validates its input as scikit-learn does, the
    handler never returns a confidence: for every request object that has the
    six keys (every valid vector among them) the answer is the 500 of the
    [except] clause, and its body has no [confidence]. *)
Theorem predict_aqi_confidence_unreachable (a : artifacts) (w : world)
    (c : classifier) (m : gmap string jvalue) :
  models_loaded a = true → model a = Some c → accepts_only_2d c →
  (∀ k, k ∈ required_fields → is_Some (m !! k)) →
  ∃ e tr,
    predict_aqi a w (inr (JObj m))
    = (error_response 500 ("Prediction failed: " +:+ exn_str w e), tr) ∧
    py_getitem (body (predict_aqi a w (inr (JObj m))).1) "confidence"
    = inl (KeyError (JStr "confidence")).
Proof.
  intros Hload Hm Hacc Hall.
  rewrite (predict_aqi_validated a w m Hload Hall).
  unfold prediction_dict, mbind, M_bind.
  destruct (extract_pollutants w (JObj m) []) as [[e|p] tr].
  - by exists e, tr.
  - destruct (classify_features_rejected a w c p tr Hm Hacc) as (e & tr' & ->).
    by exists e, tr'.
Qed.

Lemma sk_classifier_accepts_only_2d : accepts_only_2d sk_classifier.
Proof.
  intros x Hx. cbn. rewrite bool_decide_eq_false_2 by done. eauto.
Qed.

Lemma demo_vector_present (k : string) :
  k ∈ required_fields → is_Some (demo_vector !! k).
Proof.
  intros Hk. unfold required_fields in Hk.
  repeat (apply elem_of_cons in Hk as [->|Hk]; [compute_done |]).
  by apply elem_of_nil in Hk.
Qed.

Lemma predict_aqi_confidence_unreachable_witness :
  ∃ e tr,
    predict_aqi sk_artifacts (demo_world None 200) (inr (JObj demo_vector))
    = (error_response 500 ("Prediction failed: " +:+ demo_exn_str e), tr) ∧
    py_getitem (body (predict_aqi sk_artifacts (demo_world None 200)
                        (inr (JObj demo_vector))).1) "confidence"
    = inl (KeyError (JStr "confidence")).
Proof.
  apply (predict_aqi_confidence_unreachable sk_artifacts (demo_world None 200)
           sk_classifier demo_vector).
  - reflexivity.
  - reflexivity.
  - exact sk_classifier_accepts_only_2d.
  - exact demo_vector_present.
Defined.

(** The run on the vector of the specification's example: the six values are
    coerced, [predict], [predict_proba] and [inverse_transform] answer, and
    the second [predict_proba], on the wrapped matrix, raises. *)
Lemma predict_aqi_sklearn_run :
  let features :=
    Arr [Arr [Scalar (Fin 10); Scalar (Fin 20); Scalar (Fin 5); Scalar (Fin 1); Scalar (Fin (3 # 10)); Scalar (Fin 15)]] in
  predict_aqi sk_artifacts (demo_world None 200) (inr (JObj demo_vector))
  = (error_response 500
       "Prediction failed: Found array with dim 3. RandomForestClassifier expected <= 2.",
     [EvFloat (JInt 10); EvFloat (JInt 20); EvFloat (JInt 5); EvFloat (JInt 1);
      EvFloat (JFloat (Fin (3 # 10))); EvFloat (JInt 15);
      EvPredict features; EvPredictProba features; EvInverseTransform [1];
      EvPredictProba (Arr [features])]).
Proof. vm_compute. reflexivity. Qed.

(** The same run with a classifier that answers on the wrapped matrix too:
    the probabilities 0.125, 0.75, 0.125 give the confidence 75. *)
Lemma predict_aqi_lenient_run :
  (predict_aqi lenient_artifacts (demo_world None 200) (inr (JObj demo_vector))).1
  = jsonify (success_dict "Hazardous" 350 (Fin 75)
               {| emoji := "🟤"; color := "#7E0023"; range := "301+";
                  health_tip := "Emergency conditions! Stay indoors at all times. Seek medical attention if needed. 🚨" |}
               (pollutants_dict {| pm25 := Fin 10; pm10 := Fin 20; no2 := Fin 5;
                                   so2 := Fin 1; co := Fin (3 # 10);
                                   o3 := Fin 15 |})
               "2024-05-01T12:00:00.000000").
Proof. vm_compute. reflexivity. Qed.

(** [float] refuses no float and no text of a float: NaN given as text is
    coerced like any number, and comes back in [pollutants]. *)
Lemma predict_aqi_nan_run :
  let r := (predict_aqi lenient_artifacts (demo_world None 200)
              (inr (JObj (<["pm25" := JStr "nan"]> demo_vector)))).1 in
  status r = 200 ∧
  ∃ pollutants,
    py_getitem (body r) "pollutants" = inr pollutants ∧
    py_getitem pollutants "pm25" = inr (JFloat NaN).
Proof.
  cbv zeta. split; [vm_compute; reflexivity |].
  eexists. split; vm_compute; reflexivity.
Qed.

(** ** Determinism up to the timestamp *)






(** ** The live path *)

Lemma prediction_data_obj (c : gmap string jvalue) (tr : list event) :
  prediction_data (JObj c) tr = (inr (canonical_vector c), tr).
Proof. reflexivity. Qed.

Lemma canonical_vector_present (c : gmap string jvalue) (k : string) :
  k ∈ required_fields → is_Some (canonical_vector c !! k).
Proof.
  intros Hk. unfold required_fields in Hk. unfold canonical_vector. cbn.
  repeat (apply elem_of_cons in Hk as [->|Hk];
          [rewrite ?lookup_insert_ne by done; rewrite lookup_insert_eq; eauto |]).
  by apply elem_of_nil in Hk.
Qed.

(** The helper catches every exception of the inference. *)
Lemma predict_aqi_internal_catches (a : artifacts) (w : world) (data : jvalue)
    (tr : list event) :
  predict_aqi_internal a w data tr
  = match prediction_dict a w data tr with
    | (inl e, tr') =>
        (inr (error_dict ("Internal prediction failed: " +:+ exn_str w e)), tr')
    | (inr d, tr') => (inr d, tr')
    end.
Proof.
  unfold predict_aqi_internal, catch.
  by destruct (prediction_dict a w data tr) as [[e|d] tr'].
Qed.

(** C8. Without an API key (unset or empty) the handler answers 500 and the
    trace is empty: no request was sent.  With a key, when the provider
    answers with a status other than 200, the handler answers 500 with
    [Failed to fetch live data] and the trace holds the request alone: the
    classifier was not called. *)
Theorem live_upstream_failure (a : artifacts) (w : world) :
  (truthy_str (getenv_api_key w) = false →
   get_live_aqi a w
   = (error_response 500 "OpenWeatherMap API key missing", [])) ∧
  (∀ key resp,
     getenv_api_key w = Some key → key ≠ "" →
     requests_get w (live_url key) = inr resp → status_code resp ≠ 200 →
     get_live_aqi a w
     = (error_response 500 "Failed to fetch live data", [EvHttpGet (live_url key)])
     ∧ is_5xx (get_live_aqi a w).1
     ∧ Forall (λ ev, is_classifier_event ev = false) (get_live_aqi a w).2).
Proof.
  split.
  - intros Hkey. unfold get_live_aqi, try_except. by rewrite Hkey.
  - intros key resp Hkey Hne Hget Hst.
    assert (get_live_aqi a w
            = (error_response 500 "Failed to fetch live data",
               [EvHttpGet (live_url key)])) as ->.
    { unfold get_live_aqi, try_except. rewrite Hkey.
      destruct key as [|ch key']; [done |].
      cbn -[live_url air_components prediction_data predict_aqi_internal].
      unfold mbind, M_bind, lift, emit.
      by rewrite Hget, bool_decide_eq_true_2. }
    split; [done |]. split; [unfold is_5xx; cbn; lia | by repeat constructor].
Qed.

Lemma live_upstream_failure_witness :
  get_live_aqi sk_artifacts (demo_world None 503)
  = (error_response 500 "OpenWeatherMap API key missing", []) ∧
  get_live_aqi sk_artifacts (demo_world (Some "") 503)
  = (error_response 500 "OpenWeatherMap API key missing", []) ∧
  get_live_aqi sk_artifacts (demo_world (Some "k") 503)
  = (error_response 500 "Failed to fetch live data", [EvHttpGet (live_url "k")]).
Proof.
  split; [| split].
  - by apply (proj1 (live_upstream_failure sk_artifacts (demo_world None 503))).
  - by apply (proj1 (live_upstream_failure sk_artifacts (demo_world (Some "") 503))).
  - by apply (proj2 (live_upstream_failure sk_artifacts (demo_world (Some "k") 503))
                "k" {| status_code := 503;
                       json := inr (demo_air_data demo_components) |}).
Defined.

(** *** Artifacts that failed to load *)

Lemma load_failed_none (m : pyexn + classifier) (le : pyexn + label_decoder)
    (fn : pyexn + list string) :
  load_failed m le fn →
  load_models m le fn
  = {| model := None; label_encoder := None; feature_names := None |}.
Proof.
  intros [[e ->] | [[e ->] | [e ->]]]; unfold load_models;
    by repeat case_match.
Qed.

(** The direct path has the guard: every request is answered with the 500
    of line 93, before the body is even read. *)
Lemma predict_aqi_models_unavailable (m : pyexn + classifier)
    (le : pyexn + label_decoder) (fn : pyexn + list string) (w : world)
    (request_json : pyexn + jvalue) :
  load_failed m le fn →
  predict_aqi (load_models m le fn) w request_json
  = (error_response 500 "ML models not loaded properly", []).
Proof. intros H. by rewrite (load_failed_none m le fn H). Qed.

(** The inference of the live path without a model: the coercions run, then
    [model.predict] is an attribute access on [None]. *)
Lemma prediction_dict_no_model (a : artifacts) (w : world)
    (m : gmap string jvalue) (tr : list event) :
  model a = None →
  (∀ k, k ∈ required_fields → is_Some (m !! k)) →
  ∃ e evs,
    prediction_dict a w (JObj m) tr = (inl e, tr ++ evs) ∧
    Forall (λ ev, is_float_event ev = true) evs.
Proof.
  intros Hm Hall.
  destruct (required_fields_present m Hall)
    as (v1 & v2 & v3 & v4 & v5 & v6 & H1 & H2 & H3 & H4 & H5 & H6).
  unfold prediction_dict, mbind, M_bind.
  rewrite (extract_pollutants_obj w m v1 v2 v3 v4 v5 v6 tr H1 H2 H3 H4 H5 H6).
  repeat (destruct (py_float w _) as [e|?];
          [eexists e, _; split; [reflexivity | by repeat constructor] |]).
  rewrite (classify_features_no_model a w _ _ Hm).
  eexists _, _. split; [reflexivity | by repeat constructor].
Qed.

(** *** After a successful fetch *)

Section Fetched.

(** The key is set, the provider has answered 200, and the payload has
    [list[0].components], an object. *)
Context (w : world) (key : string) (resp : http_response) (air : jvalue).
Context (c : gmap string jvalue).
Hypothesis key_set : getenv_api_key w = Some key.
Hypothesis key_nonempty : key ≠ "".
Hypothesis fetched : requests_get w (live_url key) = inr resp.
Hypothesis status_ok : status_code resp = 200.
Hypothesis body_parsed : json resp = inr air.
Hypothesis has_components : air_components air = inr (JObj c).

(** The handler answers 200 with the dictionary of the helper, to which the
    components are added. *)
Lemma get_live_aqi_fetched (a : artifacts) :
  get_live_aqi a w
  = match predict_aqi_internal a w (JObj (canonical_vector c))
            [EvHttpGet (live_url key)] with
    | (inr d, tr) => (jsonify (<["components" := JObj c]> d), tr)
    | (inl e, tr) =>
        (error_response 500 ("Live AQI fetch failed: " +:+ exn_str w e), tr)
    end.
Proof.
  unfold get_live_aqi, try_except. rewrite key_set.
  destruct key as [|ch key']; [done |].
  cbn -[live_url air_components prediction_data predict_aqi_internal canonical_vector].
  unfold mbind, M_bind, lift, emit.
  rewrite fetched, status_ok, bool_decide_eq_false_2 by (intros H; by apply H).
  rewrite body_parsed, has_components, prediction_data_obj.
  by destruct (predict_aqi_internal a w _ _) as [[e|d] tr].
Qed.

(** C7. The vector that the live path hands to the classification is the
    canonical one: [pm25] is the provider's [pm2_5], the five other entries
    are the provider's entries of the same name, an entry the provider left
    out is the integer 0, and building it never fails. *)
Theorem live_field_mapping (a : artifacts) :
  (∀ tr, prediction_data (JObj c) tr = (inr (canonical_vector c), tr)) ∧
  (get_live_aqi a w).1
  = jsonify (<["components" := JObj c]>
      (match predict_aqi_internal a w (JObj (canonical_vector c))
               [EvHttpGet (live_url key)] with
       | (inr d, _) => d
       | (inl _, _) => ∅
       end)) ∧
  canonical_vector c !! "pm25" = Some (default (JInt 0) (c !! "pm2_5")) ∧
  canonical_vector c !! "pm10" = Some (default (JInt 0) (c !! "pm10")) ∧
  canonical_vector c !! "no2" = Some (default (JInt 0) (c !! "no2")) ∧
  canonical_vector c !! "so2" = Some (default (JInt 0) (c !! "so2")) ∧
  canonical_vector c !! "co" = Some (default (JInt 0) (c !! "co")) ∧
  canonical_vector c !! "o3" = Some (default (JInt 0) (c !! "o3")) ∧
  dom (canonical_vector c) = list_to_set required_fields.
Proof.
  split; [intros tr; apply prediction_data_obj |].
  split.
  { rewrite get_live_aqi_fetched, predict_aqi_internal_catches.
    by destruct (prediction_dict a w _ _) as [[e|d] tr]. }
  unfold canonical_vector. cbn.
  repeat (split; [by rewrite ?lookup_insert_ne by done; rewrite lookup_insert_eq |]).
  rewrite !dom_insert_L, dom_empty_L. set_solver.
Qed.

(** C10. The helper of the live path always returns a dictionary: when the
    inference raises, the dictionary is [{'error': 'Internal prediction
    failed: ...'}].  Hence, when the provider was fetched and parsed and the
    inference raises, the live handler answers with status 200 and a body
    made of that [error] entry and of the provider's [components]. *)
Theorem live_classification_failure_is_200 (a : artifacts) (e : pyexn)
    (tr : list event) :
  prediction_dict a w (JObj (canonical_vector c)) [EvHttpGet (live_url key)]
  = (inl e, tr) →
  (∀ data tr0, ∃ d tr1, predict_aqi_internal a w data tr0 = (inr d, tr1)) ∧
  predict_aqi_internal a w (JObj (canonical_vector c)) [EvHttpGet (live_url key)]
  = (inr (error_dict ("Internal prediction failed: " +:+ exn_str w e)), tr) ∧
  get_live_aqi a w
  = ({| status := 200;
        body := JObj (<["components" := JObj c]>
                        {[ "error" := JStr ("Internal prediction failed: "
                                            +:+ exn_str w e) ]}) |}, tr) ∧
  ¬ is_5xx (get_live_aqi a w).1.
Proof.
  intros Hfail.
  split; [| split].
  - intros data tr0. rewrite predict_aqi_internal_catches.
    destruct (prediction_dict a w data tr0) as [[e'|d] tr1]; eauto.
  - by rewrite predict_aqi_internal_catches, Hfail.
  - rewrite get_live_aqi_fetched, predict_aqi_internal_catches, Hfail.
    split; [done |]. unfold is_5xx. cbn. lia.
Qed.

(** C3. After a start-up at which an artifact failed to load, the direct
    path answers 500 at once, but the live path does not: the request is
    sent, the values are coerced, the exception of the inference is caught by
    the helper, and the answer has status 200 with an [error] entry and the
    [components]. *)
Theorem live_aqi_models_unavailable (m : pyexn + classifier)
    (le : pyexn + label_decoder) (fn : pyexn + list string) :
  load_failed m le fn →
  ∃ e evs,
    get_live_aqi (load_models m le fn) w
    = ({| status := 200;
          body := JObj (<["components" := JObj c]>
                          {[ "error" := JStr ("Internal prediction failed: "
                                              +:+ exn_str w e) ]}) |},
       EvHttpGet (live_url key) :: evs) ∧
    ¬ is_5xx (get_live_aqi (load_models m le fn) w).1 ∧
    Forall (λ ev, is_float_event ev = true) evs.
Proof.
  intros Hfail.
  rewrite (load_failed_none m le fn Hfail).
  set (a := {| model := None; label_encoder := None; feature_names := None |}).
  destruct (prediction_dict_no_model a w (canonical_vector c)
              [EvHttpGet (live_url key)] eq_refl (canonical_vector_present c))
    as (e & evs & Hpd & Hevs).
  exists e, evs.
  rewrite get_live_aqi_fetched, predict_aqi_internal_catches, Hpd.
  split; [done |]. split; [| done]. unfold is_5xx. cbn. lia.
Qed.

End Fetched.

(** *** Runs of the live path *)

Lemma demo_air_components (c : gmap string jvalue) :
  air_components (demo_air_data c) = inr (JObj c).
Proof. reflexivity. Qed.

Ltac demo_fetch :=
  first [reflexivity | done | apply demo_air_components].

(** The example of the specification: the canonical vector of its provider
    payload, and the 0 given to a field the provider left out. *)
Lemma live_field_mapping_witness :
  canonical_vector demo_components = demo_vector ∧
  canonical_vector (delete "co" demo_components) !! "co" = Some (JInt 0).
Proof.
  destruct (live_field_mapping (demo_world (Some "k") 200) "k"
              {| status_code := 200; json := inr (demo_air_data demo_components) |}
              (demo_air_data demo_components) demo_components)
    with (a := sk_artifacts)
    as (_ & _ & H1 & H2 & H3 & H4 & H5 & H6 & Hdom); [demo_fetch .. |].
  split; [| reflexivity].
  apply map_eq. intros k.
  destruct (decide (k ∈ required_fields)) as [Hk|Hk].
  - unfold required_fields in Hk.
    repeat (apply elem_of_cons in Hk as [->|Hk];
            [first [rewrite H1 | rewrite H2 | rewrite H3 | rewrite H4
                   | rewrite H5 | rewrite H6]; reflexivity |]).
    by apply elem_of_nil in Hk.
  - assert (canonical_vector demo_components !! k = None) as ->.
    { apply not_elem_of_dom. rewrite Hdom. set_solver. }
    symmetry. unfold required_fields in Hk. unknown_label Hk.
    unfold demo_vector. rewrite !lookup_insert_ne by done. apply lookup_empty.
Defined.

Lemma live_classification_failure_is_200_witness :
  get_live_aqi sk_artifacts (demo_world (Some "k") 200)
  = ({| status := 200;
        body := JObj (<["components" := JObj demo_components]>
                        {[ "error" := JStr "Internal prediction failed: Found array with dim 3. RandomForestClassifier expected <= 2." ]}) |},
     EvHttpGet (live_url "k")
     :: [EvFloat (JInt 10); EvFloat (JInt 20); EvFloat (JInt 5); EvFloat (JInt 1);
         EvFloat (JFloat (Fin (3 # 10))); EvFloat (JInt 15)]
     ++ (let features :=
           Arr [Arr [Scalar (Fin 10); Scalar (Fin 20); Scalar (Fin 5); Scalar (Fin 1); Scalar (Fin (3 # 10));
                     Scalar (Fin 15)]] in
         [EvPredict features; EvPredictProba features; EvInverseTransform [1];
          EvPredictProba (Arr [features])])).
Proof.
  eapply (live_classification_failure_is_200 (demo_world (Some "k") 200) "k"
            {| status_code := 200; json := inr (demo_air_data demo_components) |}
            (demo_air_data demo_components) demo_components)
    with (a := sk_artifacts)
         (e := Raised "Found array with dim 3. RandomForestClassifier expected <= 2.");
    [demo_fetch .. | vm_compute; reflexivity].
Defined.

Lemma live_aqi_models_unavailable_witness :
  ∃ e evs,
    get_live_aqi failed_artifacts (demo_world (Some "k") 200)
    = ({| status := 200;
          body := JObj (<["components" := JObj demo_components]>
                          {[ "error" := JStr ("Internal prediction failed: "
                                              +:+ demo_exn_str e) ]}) |},
       EvHttpGet (live_url "k") :: evs) ∧
    ¬ is_5xx (get_live_aqi failed_artifacts (demo_world (Some "k") 200)).1 ∧
    Forall (λ ev, is_float_event ev = true) evs.
Proof.
  apply (live_aqi_models_unavailable (demo_world (Some "k") 200) "k"
           {| status_code := 200; json := inr (demo_air_data demo_components) |}
           (demo_air_data demo_components) demo_components)
    with (m := inl (Raised "No such file or directory"))
         (le := inr demo_decoder) (fn := inr demo_feature_names);
    [demo_fetch .. | left; eauto].
Defined.

(** The run of the live path on artifacts that failed to load. *)
Lemma live_aqi_failed_artifacts_run :
  get_live_aqi failed_artifacts (demo_world (Some "k") 200)
  = ({| status := 200;
        body := JObj (<["components" := JObj demo_components]>
                        {[ "error" := JStr "Internal prediction failed: 'NoneType' object has no attribute 'predict'" ]}) |},
     [EvHttpGet (live_url "k");
      EvFloat (JInt 10); EvFloat (JInt 20); EvFloat (JInt 5); EvFloat (JInt 1);
      EvFloat (JFloat (Fin (3 # 10))); EvFloat (JInt 15)]).
Proof. vm_compute. reflexivity. Qed.

(** * Further properties of the handlers *)

(** ** Traces and outcomes of the two stages of the inference *)

Lemma float_of_cases (w : world) (data : jvalue) (k : string) (tr : list event) :
  float_of w data k tr
  = match py_getitem data k with
    | inl e => (inl e, tr)
    | inr v => (py_float w v, tr ++ [EvFloat v])
    end.
Proof.
  unfold float_of, mbind, M_bind, lift, emit.
  by destruct (py_getitem data k).
Qed.

Ltac float_step data k :=
  let v := fresh "v" in
  unfold mbind at 1, M_bind at 1; rewrite float_of_cases;
  destruct (py_getitem data k) as [?|v] eqn:?;
  [| destruct (py_float _ v) as [?|?] eqn:?].

Ltac float_events_done :=
  cbv beta iota; eexists; split;
  [rewrite <- ?app_assoc; cbn; reflexivity
  | split; [by repeat constructor | split; [cbn; lia |]]];
  first
    [ left; eexists; split; [| eassumption]; compute_done
    | right; eexists _, _; split; [| split; [eassumption | split;
        [eassumption | reflexivity]]]; compute_done ].

(** Feature construction either coerces the six values, in order, or stops
    at the first value that is missing or refused; it calls nothing but
    [float]. *)
Lemma extract_pollutants_spec (w : world) (data : jvalue) (tr : list event) :
  match extract_pollutants w data tr with
  | (inr p, tr') =>
      ∃ v1 v2 v3 v4 v5 v6,
        py_getitem data "pm25" = inr v1 ∧ py_float w v1 = inr (pm25 p) ∧
        py_getitem data "pm10" = inr v2 ∧ py_float w v2 = inr (pm10 p) ∧
        py_getitem data "no2" = inr v3 ∧ py_float w v3 = inr (no2 p) ∧
        py_getitem data "so2" = inr v4 ∧ py_float w v4 = inr (so2 p) ∧
        py_getitem data "co" = inr v5 ∧ py_float w v5 = inr (co p) ∧
        py_getitem data "o3" = inr v6 ∧ py_float w v6 = inr (o3 p) ∧
        tr' = tr ++ [EvFloat v1; EvFloat v2; EvFloat v3; EvFloat v4;
                     EvFloat v5; EvFloat v6]
  | (inl e, tr') =>
      ∃ evs, tr' = tr ++ evs ∧ Forall (λ ev, is_float_event ev = true) evs
             ∧ (length evs ≤ 6)%nat
             ∧ ((∃ k, k ∈ required_fields ∧ py_getitem data k = inl e) ∨
                (∃ k v, k ∈ required_fields ∧ py_getitem data k = inr v ∧
                        py_float w v = inl e ∧ last evs = Some (EvFloat v)))
  end.
Proof.
  unfold extract_pollutants.
  float_step data "pm25";
    [exists []; rewrite app_nil_r;
     split; [done | split; [apply Forall_nil_2 | split; [cbn; lia |]]];
     left; eexists; split; [| eassumption]; compute_done
    | float_events_done |].
  float_step data "pm10"; [float_events_done | float_events_done |].
  float_step data "no2"; [float_events_done | float_events_done |].
  float_step data "so2"; [float_events_done | float_events_done |].
  float_step data "co"; [float_events_done | float_events_done |].
  float_step data "o3"; [float_events_done | float_events_done |].
  cbn. eexists _, _, _, _, _, _.
  repeat (split; [eassumption |]). by rewrite <- !app_assoc.
Qed.

Ltac classifier_events_done :=
  eexists; split;
  [rewrite <- ?app_assoc; cbn; first [reflexivity | symmetry; apply app_nil_r]
  | split; [by repeat constructor | cbn; lia]].

(** The classification either makes its four calls, in the order [predict],
    [predict_proba], [inverse_transform], [predict_proba], and builds the
    dictionary from their answers, or stops at the first call that raises or
    answers with an empty sequence; it calls nothing but the classifier and
    the decoder. *)
Lemma classify_features_spec (a : artifacts) (w : world) (p : pollutant_vector)
    (tr : list event) :
  let features := np_array_row (pollutant_list p) in
  match classify_features a w p tr with
  | (inr d, tr') =>
      ∃ c le y ys r0 rs0 l ls row rows mx info,
        model a = Some c ∧ label_encoder a = Some le ∧
        predict c features = inr (y :: ys) ∧
        predict_proba c features = inr (r0 :: rs0) ∧
        inverse_transform le [y] = inr (l :: ls) ∧
        predict_proba c (Arr [features]) = inr (row :: rows) ∧
        py_max row = inr mx ∧
        AQI_INFO_get l = inr info ∧
        d = success_dict l (get_aqi_value_from_class l)
              (reported_confidence w mx) info (pollutants_dict p) (clock_now w) ∧
        tr' = tr ++ [EvPredict features; EvPredictProba features;
                     EvInverseTransform [y]; EvPredictProba (Arr [features])]
  | (inl e, tr') =>
      ∃ evs, tr' = tr ++ evs ∧ Forall (λ ev, is_classifier_event ev = true) evs
             ∧ (length evs ≤ 4)%nat
  end.
Proof.
  intros features.
  unfold classify_features, call_predict, call_predict_proba,
    call_inverse_transform, mbind, M_bind, lift, emit, raise, lift.
  fold features.
  destruct (model a) as [c|]; [| classifier_events_done].
  destruct (predict c features) as [?|[|y ys]] eqn:Hp;
    [classifier_events_done | classifier_events_done |].
  cbn -[py_max AQI_INFO_get].
  destruct (predict_proba c features) as [?|[|r0 rs0]] eqn:Hpp;
    [classifier_events_done | classifier_events_done |].
  cbn -[py_max AQI_INFO_get].
  destruct (label_encoder a) as [le|]; [| classifier_events_done].
  destruct (inverse_transform le [y]) as [?|[|l ls]] eqn:Hinv;
    [classifier_events_done | classifier_events_done |].
  cbn -[py_max AQI_INFO_get].
  destruct (predict_proba c (Arr [features])) as [?|[|row rows]] eqn:Hpp3;
    [classifier_events_done | classifier_events_done |].
  cbn -[py_max AQI_INFO_get].
  destruct (py_max row) as [?|mx] eqn:Hmax; [classifier_events_done |].
  cbn -[AQI_INFO_get].
  destruct (AQI_INFO_get l) as [?|info] eqn:Hinfo; [classifier_events_done |].
  cbn.
  exists c, le, y, ys, r0, rs0, l, ls, row, rows, mx, info.
  repeat (split; [done |]). by rewrite <- !app_assoc.
Qed.

(** ** Outcomes of [/predict] *)

Lemma first_missing_inv (fields : list string) (data : jvalue) :
  match first_missing fields data with
  | inl e => e = TypeError_not_container (py_type_name data)
  | inr (Some f) =>
      py_contains f data = inr false ∧
      ∃ pre post, fields = pre ++ f :: post ∧
                  Forall (λ g, py_contains g data = inr true) pre
  | inr None => Forall (λ g, py_contains g data = inr true) fields
  end.
Proof.
  induction fields as [|g rest IH]; [by constructor |].
  cbn. destruct (py_contains g data) as [e|[|]] eqn:Hg.
  - destruct data; cbn in *; congruence.
  - destruct (first_missing rest data) as [e|[f|]].
    + done.
    + destruct IH as (Hf & pre & post & -> & Hpre).
      split; [done |]. exists (g :: pre), post. split; [done | by constructor].
    + by constructor.
  - split; [done |]. exists [], rest. split; [done | constructor].
Qed.

(** The five ways through the handler. *)
Lemma predict_aqi_cases (a : artifacts) (w : world) (request_json : pyexn + jvalue) :
  (models_loaded a = false ∧
   predict_aqi a w request_json
   = (error_response 500 "ML models not loaded properly", [])) ∨
  (models_loaded a = true ∧ ∃ e,
     request_json = inl e ∧
     predict_aqi a w request_json
     = (error_response 500 ("Prediction failed: " +:+ exn_str w e), [])) ∨
  (models_loaded a = true ∧ ∃ data e,
     request_json = inr data ∧ first_missing required_fields data = inl e ∧
     predict_aqi a w request_json
     = (error_response 500 ("Prediction failed: " +:+ exn_str w e), [])) ∨
  (models_loaded a = true ∧ ∃ data f,
     request_json = inr data ∧ first_missing required_fields data = inr (Some f) ∧
     predict_aqi a w request_json
     = (error_response 400 ("Missing required field: " +:+ f), [])) ∨
  (models_loaded a = true ∧ ∃ data,
     request_json = inr data ∧ first_missing required_fields data = inr None ∧
     predict_aqi a w request_json
     = match prediction_dict a w data [] with
       | (inr d, tr) => (jsonify d, tr)
       | (inl e, tr) =>
           (error_response 500 ("Prediction failed: " +:+ exn_str w e), tr)
       end).
Proof.
  unfold predict_aqi, try_except.
  destruct (models_loaded a); [| by left].
  right. cbn -[first_missing required_fields prediction_dict].
  unfold mbind, M_bind, lift.
  destruct request_json as [e|data]; [left; eauto |].
  right. destruct (first_missing required_fields data) as [e|[f|]] eqn:Hfm.
  - left. split; [done |]. by exists data, e.
  - right. left. split; [done |]. by exists data, f.
  - right. right. split; [done |]. exists data. split; [done |]. split; [done |].
    by destruct (prediction_dict a w data []) as [[e|d] tr].
Qed.

Lemma success_dict_lookups (l : string) (v : Z) (conf : pyfloat) (info : aqi_meta)
    (ps : gmap string jvalue) (t : string) :
  let d := success_dict l v conf info ps t in
  d !! "success" = Some (JBool true) ∧
  d !! "aqi_class" = Some (JStr l) ∧
  d !! "aqi_value" = Some (JInt v) ∧
  d !! "confidence" = Some (JFloat conf) ∧
  d !! "emoji" = Some (JStr (emoji info)) ∧
  d !! "color" = Some (JStr (color info)) ∧
  d !! "range" = Some (JStr (range info)) ∧
  d !! "health_tip" = Some (JStr (health_tip info)) ∧
  d !! "pollutants" = Some (JObj ps) ∧
  d !! "timestamp" = Some (JStr t) ∧
  d !! "error" = None ∧
  d !! "components" = None.
Proof.
  unfold success_dict.
  repeat (split; [by rewrite ?lookup_insert_ne by done; rewrite lookup_insert_eq |]).
  split; by rewrite !lookup_insert_ne by done.
Qed.

(** A 200 of [/predict] comes from a full run of the inference. *)
Lemma predict_aqi_200_inv (a : artifacts) (w : world)
    (request_json : pyexn + jvalue) :
  status (predict_aqi a w request_json).1 = 200 →
  ∃ data p tr0 d tr,
    request_json = inr data ∧
    first_missing required_fields data = inr None ∧
    extract_pollutants w data [] = (inr p, tr0) ∧
    classify_features a w p tr0 = (inr d, tr) ∧
    predict_aqi a w request_json = (jsonify d, tr).
Proof.
  intros H200.
  destruct (predict_aqi_cases a w request_json)
    as [[_ Heq] | [(_ & e & _ & Heq) | [(_ & data & e & _ & _ & Heq)
       | [(_ & data & f & _ & _ & Heq) | (_ & data & Hreq & Hfm & Heq)]]]];
    rewrite Heq in H200; try discriminate.
  unfold prediction_dict, mbind, M_bind in Heq, H200.
  destruct (extract_pollutants w data []) as [[e|p] tr0] eqn:Hext;
    [discriminate |].
  destruct (classify_features a w p tr0) as [[e|d] tr] eqn:Hcls;
    [discriminate |].
  by exists data, p, tr0, d, tr.
Qed.

(** X1. [/predict] answers with 200, 400 or 500 and nothing else; a body
    that comes with 400 or 500 is one [error] entry; a body that comes with
    200 has [success] set and no [error]. *)
Theorem predict_aqi_status_codes (a : artifacts) (w : world)
    (request_json : pyexn + jvalue) :
  let r := (predict_aqi a w request_json).1 in
  (status r = 200 ∨ status r = 400 ∨ status r = 500) ∧
  (status r ≠ 200 → is_error_body (body r)) ∧
  (status r = 200 →
   py_getitem (body r) "success" = inr (JBool true) ∧
   py_getitem (body r) "error" = inl (KeyError (JStr "error"))).
Proof.
  cbv zeta.
  destruct (predict_aqi_cases a w request_json)
    as [[_ Heq] | [(_ & e & _ & Heq) | [(_ & data & e & _ & _ & Heq)
       | [(_ & data & f & _ & _ & Heq) | (_ & data & Hreq & Hfm & Heq)]]]];
    rewrite Heq; clear Heq;
    try (cbn; split; [auto | split; [intros _; by eexists | done]]).
  unfold prediction_dict, mbind, M_bind.
  destruct (extract_pollutants w data []) as [[e|p] tr0];
    [cbn; split; [auto | split; [intros _; by eexists | done]] |].
  pose proof (classify_features_spec a w p tr0) as Hspec. cbv zeta in Hspec.
  destruct (classify_features a w p tr0) as [[e|d] tr];
    [cbn; split; [auto | split; [intros _; by eexists | done]] |].
  destruct Hspec as (c & le & y & ys & r0 & rs0 & l & ls & row & rows & mx
                     & info & _ & _ & _ & _ & _ & _ & _ & _ & -> & _).
  cbn -[success_dict]. split; [auto | split; [done | intros _]].
  destruct (success_dict_lookups l (get_aqi_value_from_class l)
              (reported_confidence w mx) info (pollutants_dict p) (clock_now w))
    as (Hs & _ & _ & _ & _ & _ & _ & _ & _ & _ & He & _).
  by rewrite Hs, He.
Qed.

(** X2. A 400 of [/predict] is always the report of a missing field: the
    artifacts are loaded, the body was parsed, the field named in the message
    is the first of the required fields that is not in the body, and nothing
    was coerced or classified. *)
Theorem predict_aqi_400_only_missing (a : artifacts) (w : world)
    (request_json : pyexn + jvalue) :
  status (predict_aqi a w request_json).1 = 400 →
  models_loaded a = true ∧
  ∃ data f pre post,
    request_json = inr data ∧
    required_fields = pre ++ f :: post ∧
    Forall (λ g, py_contains g data = inr true) pre ∧
    py_contains f data = inr false ∧
    predict_aqi a w request_json
    = (error_response 400 ("Missing required field: " +:+ f), []).
Proof.
  intros H400.
  destruct (predict_aqi_cases a w request_json)
    as [[_ Heq] | [(_ & e & _ & Heq) | [(_ & data & e & _ & _ & Heq)
       | [(Hload & data & f & Hreq & Hfm & Heq) | (_ & data & Hreq & Hfm & Heq)]]]];
    rewrite Heq in H400; try discriminate.
  - split; [done |].
    pose proof (first_missing_inv required_fields data) as Hinv.
    rewrite Hfm in Hinv. destruct Hinv as (Hf & pre & post & Hsplit & Hpre).
    by exists data, f, pre, post.
  - by destruct (prediction_dict a w data []) as [[e|d] tr].
Qed.

Lemma predict_aqi_400_only_missing_witness :
  ∃ data f pre post,
    (inr (JObj (delete "no2" demo_vector)) : pyexn + jvalue) = inr data ∧
    required_fields = pre ++ f :: post ∧
    Forall (λ g, py_contains g data = inr true) pre ∧
    py_contains f data = inr false ∧
    predict_aqi sk_artifacts (demo_world None 200)
      (inr (JObj (delete "no2" demo_vector)))
    = (error_response 400 ("Missing required field: " +:+ f), []).
Proof.
  apply (predict_aqi_400_only_missing sk_artifacts (demo_world None 200)
           (inr (JObj (delete "no2" demo_vector)))).
  vm_compute. reflexivity.
Defined.

(** X3. With the artifacts loaded, a request whose body is not a JSON object
    (or could not be parsed at all) never gets a 200, and nothing is coerced
    or classified for it.  A list or a string in which the six names are
    found passes the validation loop and then fails at [data['pm25']]: the
    answer is the 500 of the [except] clause. *)
Theorem predict_aqi_body_not_object (a : artifacts) (w : world)
    (request_json : pyexn + jvalue) :
  models_loaded a = true →
  (∀ m, request_json ≠ inr (JObj m)) →
  (predict_aqi a w request_json).2 = [] ∧
  status (predict_aqi a w request_json).1 ≠ 200 ∧
  (∀ data,
     request_json = inr data →
     first_missing required_fields data = inr None →
     (predict_aqi a w request_json).1
     = error_response 500
         ("Prediction failed: "
          +:+ exn_str w (TypeError_subscript (py_type_name data)))).
Proof.
  intros Hload Hobj.
  destruct (predict_aqi_cases a w request_json)
    as [[Hn _] | [(_ & e & Hreq & Heq) | [(_ & data & e & Hreq & Hfm & Heq)
       | [(_ & data & f & Hreq & Hfm & Heq) | (_ & data & Hreq & Hfm & Heq)]]]];
    [congruence | | | |]; rewrite Heq; clear Heq.
  - repeat split; [done |]. intros data Hd. congruence.
  - repeat split; [done |]. intros data' Hd Hfm'. congruence.
  - repeat split; [done |]. intros data' Hd Hfm'. congruence.
  - assert (prediction_dict a w data []
            = (inl (TypeError_subscript (py_type_name data)), [])) as ->.
    { unfold prediction_dict, extract_pollutants.
      unfold mbind at 1, M_bind at 1. unfold mbind at 1, M_bind at 1.
      rewrite float_of_cases.
      destruct data; try reflexivity. by destruct (Hobj m). }
    repeat split; [done |]. intros data' Hd _.
    assert (data' = data) as -> by congruence. reflexivity.
Qed.

Lemma predict_aqi_body_not_object_witness :
  (predict_aqi sk_artifacts (demo_world None 200) (inr demo_list_body)).2 = [] ∧
  status (predict_aqi sk_artifacts (demo_world None 200) (inr demo_list_body)).1
  ≠ 200 ∧
  (predict_aqi sk_artifacts (demo_world None 200) (inr demo_list_body)).1
  = error_response 500
      ("Prediction failed: " +:+ demo_exn_str (TypeError_subscript "list")).
Proof.
  destruct (predict_aqi_body_not_object sk_artifacts (demo_world None 200)
              (inr demo_list_body)) as (Htr & Hst & Hmsg);
    [reflexivity | done |].
  split; [exact Htr | split; [exact Hst |]].
  apply (Hmsg demo_list_body); reflexivity.
Defined.

(** A 200 of [/predict], in full. *)
Lemma predict_aqi_200_full (a : artifacts) (w : world)
    (request_json : pyexn + jvalue) :
  status (predict_aqi a w request_json).1 = 200 →
  ∃ data p c le y ys l ls row rows mx info v1 v2 v3 v4 v5 v6,
    let features := np_array_row (pollutant_list p) in
    request_json = inr data ∧
    (extract_pollutants w data []).1 = inr p ∧
    py_getitem data "pm25" = inr v1 ∧ py_float w v1 = inr (pm25 p) ∧
    py_getitem data "pm10" = inr v2 ∧ py_float w v2 = inr (pm10 p) ∧
    py_getitem data "no2" = inr v3 ∧ py_float w v3 = inr (no2 p) ∧
    py_getitem data "so2" = inr v4 ∧ py_float w v4 = inr (so2 p) ∧
    py_getitem data "co" = inr v5 ∧ py_float w v5 = inr (co p) ∧
    py_getitem data "o3" = inr v6 ∧ py_float w v6 = inr (o3 p) ∧
    model a = Some c ∧ label_encoder a = Some le ∧
    predict c features = inr (y :: ys) ∧
    inverse_transform le [y] = inr (l :: ls) ∧
    predict_proba c (Arr [features]) = inr (row :: rows) ∧
    py_max row = inr mx ∧
    AQI_INFO_get l = inr info ∧
    predict_aqi a w request_json
    = (jsonify (success_dict l (get_aqi_value_from_class l)
                  (reported_confidence w mx) info (pollutants_dict p) (clock_now w)),
       [EvFloat v1; EvFloat v2; EvFloat v3; EvFloat v4; EvFloat v5; EvFloat v6;
        EvPredict features; EvPredictProba features; EvInverseTransform [y];
        EvPredictProba (Arr [features])]).
Proof.
  intros H200.
  destruct (predict_aqi_200_inv a w request_json H200)
    as (data & p & tr0 & d & tr & Hreq & _ & Hext & Hcls & Heq).
  pose proof (extract_pollutants_spec w data []) as Hes. rewrite Hext in Hes.
  destruct Hes as (v1 & v2 & v3 & v4 & v5 & v6 & ? & ? & ? & ? & ? & ? & ? & ?
                   & ? & ? & ? & ? & ->).
  pose proof (classify_features_spec a w p
                ([] ++ [EvFloat v1; EvFloat v2; EvFloat v3; EvFloat v4;
                        EvFloat v5; EvFloat v6])) as Hcs.
  cbv zeta in Hcs. rewrite Hcls in Hcs.
  destruct Hcs as (c & le & y & ys & r0 & rs0 & l & ls & row & rows & mx & info
                   & ? & ? & ? & ? & ? & ? & ? & ? & -> & ->).
  exists data, p, c, le, y, ys, l, ls, row, rows, mx, info, v1, v2, v3, v4, v5, v6.
  cbv zeta. rewrite Hext. by repeat (split; [done |]).
Qed.

(** ** Determinism up to the timestamp, continued *)




(** The two runs of the example: the label, the value and the confidence
    that both return. *)
Lemma predict_aqi_deterministic_run :
  let r1 := predict_aqi lenient_artifacts
              (with_clock (demo_world None 200) "2024-05-01T12:00:00.000000")
              (inr (JObj demo_vector)) in
  let r2 := predict_aqi lenient_artifacts
              (with_clock (demo_world None 200) "2024-05-01T12:00:07.000000")
              (inr (JObj demo_vector)) in
  py_getitem (body r1.1) "aqi_class" = inr (JStr "Hazardous") ∧
  py_getitem (body r2.1) "aqi_class" = inr (JStr "Hazardous") ∧
  py_getitem (body r1.1) "aqi_value" = inr (JInt 350) ∧
  py_getitem (body r2.1) "aqi_value" = inr (JInt 350) ∧
  py_getitem (body r1.1) "confidence" = inr (JFloat (Fin 75)) ∧
  py_getitem (body r2.1) "confidence" = inr (JFloat (Fin 75)) ∧
  py_getitem (body r1.1) "timestamp" ≠ py_getitem (body r2.1) "timestamp".
Proof. cbv zeta. repeat split; try (vm_compute; reflexivity). by vm_compute. Qed.

(** X4. A 200 of [/predict] is consistent with its inputs: [aqi_class] is
    the decoder's label for the classifier's prediction on the six coerced
    values, [aqi_value] is the midpoint of that very label, the four display
    entries are those of the catalog for that label, [pollutants] echoes the
    six coerced values under their names, and [timestamp] is the reading of
    the clock. *)
Theorem predict_aqi_200_consistent (a : artifacts) (w : world)
    (request_json : pyexn + jvalue) :
  status (predict_aqi a w request_json).1 = 200 →
  ∃ data p c le y ys l ls info,
    let b := body (predict_aqi a w request_json).1 in
    request_json = inr data ∧
    (extract_pollutants w data []).1 = inr p ∧
    model a = Some c ∧ label_encoder a = Some le ∧
    predict c (np_array_row (pollutant_list p)) = inr (y :: ys) ∧
    inverse_transform le [y] = inr (l :: ls) ∧
    AQI_INFO_get l = inr info ∧
    py_getitem b "aqi_class" = inr (JStr l) ∧
    py_getitem b "aqi_value" = inr (JInt (get_aqi_value_from_class l)) ∧
    py_getitem b "emoji" = inr (JStr (emoji info)) ∧
    py_getitem b "color" = inr (JStr (color info)) ∧
    py_getitem b "range" = inr (JStr (range info)) ∧
    py_getitem b "health_tip" = inr (JStr (health_tip info)) ∧
    py_getitem b "pollutants" = inr (JObj (pollutants_dict p)) ∧
    py_getitem b "timestamp" = inr (JStr (clock_now w)).
Proof.
  intros H200.
  destruct (predict_aqi_200_full a w request_json H200)
    as (data & p & c & le & y & ys & l & ls & row & rows & mx & info
        & v1 & v2 & v3 & v4 & v5 & v6 & H).
  cbv zeta in H.
  destruct H as (Hreq & Hext & G1 & F1 & G2 & F2 & G3 & F3 & G4 & F4 & G5 & F5
                 & G6 & F6 & Hm & Hle & Hp & Hinv & Hpp & Hmax & Hinfo & Heq).
  exists data, p, c, le, y, ys, l, ls, info. cbv zeta.
  rewrite Heq. cbn [fst body jsonify py_getitem].
  destruct (success_dict_lookups l (get_aqi_value_from_class l)
              (reported_confidence w mx) info (pollutants_dict p) (clock_now w))
    as (_ & L1 & L2 & _ & L3 & L4 & L5 & L6 & L7 & L8 & _ & _).
  rewrite L1, L2, L3, L4, L5, L6, L7, L8.
  by repeat (split; [done |]).
Qed.

Lemma predict_aqi_lenient_200 :
  status (predict_aqi lenient_artifacts (demo_world None 200)
            (inr (JObj demo_vector))).1 = 200.
Proof. vm_compute. reflexivity. Qed.

Lemma predict_aqi_200_consistent_witness :
  ∃ data p c le y ys l ls info,
    let b := body (predict_aqi lenient_artifacts (demo_world None 200)
                     (inr (JObj demo_vector))).1 in
    (inr (JObj demo_vector) : pyexn + jvalue) = inr data ∧
    (extract_pollutants (demo_world None 200) data []).1 = inr p ∧
    model lenient_artifacts = Some c ∧ label_encoder lenient_artifacts = Some le ∧
    predict c (np_array_row (pollutant_list p)) = inr (y :: ys) ∧
    inverse_transform le [y] = inr (l :: ls) ∧
    AQI_INFO_get l = inr info ∧
    py_getitem b "aqi_class" = inr (JStr l) ∧
    py_getitem b "aqi_value" = inr (JInt (get_aqi_value_from_class l)) ∧
    py_getitem b "emoji" = inr (JStr (emoji info)) ∧
    py_getitem b "color" = inr (JStr (color info)) ∧
    py_getitem b "range" = inr (JStr (range info)) ∧
    py_getitem b "health_tip" = inr (JStr (health_tip info)) ∧
    py_getitem b "pollutants" = inr (JObj (pollutants_dict p)) ∧
    py_getitem b "timestamp" = inr (JStr "2024-05-01T12:00:00.000000").
Proof.
  apply (predict_aqi_200_consistent lenient_artifacts (demo_world None 200)
           (inr (JObj demo_vector))).
  exact predict_aqi_lenient_200.
Defined.

(** X5. When the decoder gives a label that the catalog does not know, a 200
    of [/predict] reports that label as [aqi_class], with the value 100 and
    the display entries of [Moderate]: the value is not the midpoint 75 of
    [Moderate], and the range shown, 51-100, is that of [Moderate]. *)
Theorem predict_aqi_unknown_label (a : artifacts) (w : world)
    (request_json : pyexn + jvalue) (l : string) :
  let b := body (predict_aqi a w request_json).1 in
  status (predict_aqi a w request_json).1 = 200 →
  py_getitem b "aqi_class" = inr (JStr l) →
  l ∉ known_labels →
  py_getitem b "aqi_value" = inr (JInt 100) ∧
  py_getitem b "emoji" = inr (JStr (emoji moderate_meta)) ∧
  py_getitem b "color" = inr (JStr "#FFFF00") ∧
  py_getitem b "range" = inr (JStr "51-100") ∧
  py_getitem b "health_tip" = inr (JStr (health_tip moderate_meta)) ∧
  get_aqi_value_from_class "Moderate" = 75.
Proof.
  cbv zeta. intros H200 Hclass Hl.
  destruct (predict_aqi_200_full a w request_json H200)
    as (data & p & c & le & y & ys & l' & ls & row & rows & mx & info
        & v1 & v2 & v3 & v4 & v5 & v6 & H).
  cbv zeta in H.
  destruct H as (_ & _ & _ & _ & _ & _ & _ & _ & _ & _ & _ & _ & _ & _
                 & _ & _ & _ & _ & _ & _ & Hinfo & Heq).
  rewrite Heq in Hclass |- *. cbn [fst body jsonify py_getitem] in Hclass |- *.
  destruct (success_dict_lookups l' (get_aqi_value_from_class l')
              (reported_confidence w mx) info (pollutants_dict p) (clock_now w))
    as (_ & L1 & L2 & _ & L3 & L4 & L5 & L6 & _).
  rewrite L1 in Hclass. injection Hclass as ->.
  rewrite L2, L3, L4, L5, L6.
  unfold AQI_INFO_get in Hinfo. rewrite AQI_INFO_Moderate in Hinfo.
  rewrite (AQI_INFO_unknown l Hl) in Hinfo. injection Hinfo as <-.
  unfold get_aqi_value_from_class at 1. rewrite (midpoints_unknown l Hl).
  by repeat split.
Qed.

Lemma predict_aqi_unknown_label_witness :
  let b := body (predict_aqi odd_artifacts (demo_world None 200)
                   (inr (JObj demo_vector))).1 in
  py_getitem b "aqi_class" = inr (JStr "Severe") ∧
  py_getitem b "aqi_value" = inr (JInt 100) ∧
  py_getitem b "range" = inr (JStr "51-100").
Proof.
  cbv zeta.
  destruct (predict_aqi_unknown_label odd_artifacts (demo_world None 200)
              (inr (JObj demo_vector)) "Severe")
    as (Hv & _ & _ & Hr & _).
  - vm_compute. reflexivity.
  - vm_compute. reflexivity.
  - compute_done.
  - split; [vm_compute; reflexivity | split; [exact Hv | exact Hr]].
Defined.





(** X7. The calls of [/predict], in order: at most six coercions, then at
    most four calls to the classifier and the decoder; the classifier is
    called only after the six coercions succeeded; a 200 comes with exactly
    six coercions and four calls; the HTTP client is never used. *)
Theorem predict_aqi_trace_discipline (a : artifacts) (w : world)
    (request_json : pyexn + jvalue) :
  ∃ fl cl,
    (predict_aqi a w request_json).2 = fl ++ cl ∧
    Forall (λ ev, is_float_event ev = true) fl ∧
    Forall (λ ev, is_classifier_event ev = true) cl ∧
    (length fl ≤ 6)%nat ∧ (length cl ≤ 4)%nat ∧
    (cl ≠ [] → length fl = 6%nat) ∧
    (status (predict_aqi a w request_json).1 = 200 →
     length fl = 6%nat ∧ length cl = 4%nat) ∧
    (∀ url, EvHttpGet url ∉ (predict_aqi a w request_json).2).
Proof.
  assert (∀ fl cl (tr : list event),
            tr = fl ++ cl →
            Forall (λ ev, is_float_event ev = true) fl →
            Forall (λ ev, is_classifier_event ev = true) cl →
            ∀ url, EvHttpGet url ∉ tr) as Hnohttp.
  { intros fl cl tr -> Hfl Hcl url Hin.
    apply elem_of_app in Hin as [Hin|Hin].
    - by apply (proj1 (Forall_forall _ _) Hfl) in Hin.
    - by apply (proj1 (Forall_forall _ _) Hcl) in Hin. }
  destruct (predict_aqi_cases a w request_json)
    as [[_ Heq] | [(_ & e & _ & Heq) | [(_ & data & e & _ & _ & Heq)
       | [(_ & data & f & _ & _ & Heq) | (_ & data & Hreq & Hfm & Heq)]]]];
    rewrite Heq; clear Heq;
    try (exists [], []; cbn;
         repeat split; try done; try constructor; try lia;
         intros url Hin; by apply elem_of_nil in Hin).
  unfold prediction_dict, mbind, M_bind.
  pose proof (extract_pollutants_spec w data []) as Hes.
  destruct (extract_pollutants w data []) as [[e|p] tr0].
  { destruct Hes as (evs & -> & Hfl & Hlen & _).
    exists evs, []. cbn. rewrite app_nil_r.
    repeat split; try done; try constructor; try lia.
    eapply (Hnohttp evs []); [by rewrite app_nil_r | done | constructor]. }
  destruct Hes as (v1 & v2 & v3 & v4 & v5 & v6 & _ & _ & _ & _ & _ & _ & _ & _
                   & _ & _ & _ & _ & ->).
  pose proof (classify_features_spec a w p
                ([] ++ [EvFloat v1; EvFloat v2; EvFloat v3; EvFloat v4;
                        EvFloat v5; EvFloat v6])) as Hcs.
  cbv zeta in Hcs.
  destruct (classify_features a w p _) as [[e|d] tr].
  - destruct Hcs as (evs & -> & Hcl & Hlen).
    exists [EvFloat v1; EvFloat v2; EvFloat v3; EvFloat v4; EvFloat v5; EvFloat v6],
           evs.
    cbn. repeat split; try done; try lia; [by repeat constructor |].
    apply (Hnohttp [EvFloat v1; EvFloat v2; EvFloat v3; EvFloat v4; EvFloat v5;
                    EvFloat v6] evs);
      [reflexivity | by repeat constructor | done].
  - destruct Hcs as (c & le & y & ys & r0 & rs0 & l & ls & row & rows & mx & info
                     & _ & _ & _ & _ & _ & _ & _ & _ & _ & ->).
    set (features := np_array_row (pollutant_list p)).
    exists [EvFloat v1; EvFloat v2; EvFloat v3; EvFloat v4; EvFloat v5; EvFloat v6],
           [EvPredict features; EvPredictProba features; EvInverseTransform [y];
            EvPredictProba (Arr [features])].
    cbn. split; [reflexivity |].
    repeat split; try done; try (cbn; lia); try (by repeat constructor).
    apply (Hnohttp [EvFloat v1; EvFloat v2; EvFloat v3; EvFloat v4; EvFloat v5;
                    EvFloat v6]
                   [EvPredict features; EvPredictProba features;
                    EvInverseTransform [y]; EvPredictProba (Arr [features])]);
      [reflexivity | by repeat constructor | by repeat constructor].
Qed.

(** ** Outcomes of [/live-aqi] *)

(** The ways through the live handler. *)
Lemma get_live_aqi_cases (a : artifacts) (w : world) :
  (truthy_str (getenv_api_key w) = false ∧
   get_live_aqi a w = (error_response 500 "OpenWeatherMap API key missing", [])) ∨
  ∃ key,
    getenv_api_key w = Some key ∧ key ≠ "" ∧
    ((∃ e, requests_get w (live_url key) = inl e ∧
           get_live_aqi a w
           = (error_response 500 ("Live AQI fetch failed: " +:+ exn_str w e),
              [EvHttpGet (live_url key)])) ∨
     ∃ resp,
       requests_get w (live_url key) = inr resp ∧
       ((status_code resp ≠ 200 ∧
         get_live_aqi a w
         = (error_response 500 "Failed to fetch live data",
            [EvHttpGet (live_url key)])) ∨
        (status_code resp = 200 ∧
         ((∃ e, json resp = inl e ∧
                get_live_aqi a w
                = (error_response 500 ("Live AQI fetch failed: " +:+ exn_str w e),
                   [EvHttpGet (live_url key)])) ∨
          ∃ air,
            json resp = inr air ∧
            ((∃ e, air_components air = inl e ∧
                   get_live_aqi a w
                   = (error_response 500
                        ("Live AQI fetch failed: " +:+ exn_str w e),
                      [EvHttpGet (live_url key)])) ∨
             (∃ v, air_components air = inr v ∧ is_object v = false ∧
                   get_live_aqi a w
                   = (error_response 500
                        ("Live AQI fetch failed: "
                         +:+ exn_str w (AttributeError (py_type_name v) "get")),
                      [EvHttpGet (live_url key)])) ∨
             (∃ c, air_components air = inr (JObj c) ∧
                   get_live_aqi a w
                   = match predict_aqi_internal a w (JObj (canonical_vector c))
                             [EvHttpGet (live_url key)] with
                     | (inr d, tr) => (jsonify (<["components" := JObj c]> d), tr)
                     | (inl e, tr) =>
                         (error_response 500
                            ("Live AQI fetch failed: " +:+ exn_str w e), tr)
                     end)))))).
Proof.
  destruct (truthy_str (getenv_api_key w)) eqn:Hkey.
  2:{ left. split; [done |]. unfold get_live_aqi, try_except. by rewrite Hkey. }
  right. destruct (getenv_api_key w) as [[|ch key']|] eqn:Hk; try discriminate.
  exists (String ch key'). split; [done |]. split; [done |].
  unfold get_live_aqi, try_except. rewrite Hk.
  cbn -[live_url air_components prediction_data predict_aqi_internal canonical_vector].
  unfold mbind, M_bind, lift, emit.
  destruct (requests_get w (live_url (String ch key'))) as [e|resp];
    [left; by exists e |].
  right. exists resp. split; [done |].
  destruct (decide (status_code resp = 200)) as [Hst|Hst].
  2:{ left. split; [done |]. by rewrite bool_decide_eq_true_2. }
  right. split; [done |].
  rewrite bool_decide_eq_false_2 by (intros H; by apply H).
  destruct (json resp) as [e|air]; [left; by exists e |].
  right. exists air. split; [done |].
  destruct (air_components air) as [e|v]; [left; by exists e |].
  right. destruct v; try (left; eexists; split; [reflexivity | split; reflexivity]).
  right. exists m. split; [done |]. rewrite prediction_data_obj.
  by destruct (predict_aqi_internal a w _ _) as [[e|d] tr].
Qed.

(** X8. [air_data['list'][0]['components']] succeeds exactly when the
    payload is an object whose [list] is a list whose first element is an
    object with the key [components]; only the first element is looked at.
    A payload without [list] fails with [KeyError], an empty list with
    [IndexError], a first element without [components] with [KeyError]. *)
Theorem air_components_iff (air v : jvalue) :
  (air_components air = inr v ↔
   ∃ m x rest, air = JObj m ∧ m !! "list" = Some (JArr (JObj x :: rest)) ∧
               x !! "components" = Some v) ∧
  (∀ m, air = JObj m → m !! "list" = None →
        air_components air = inl (KeyError (JStr "list"))) ∧
  (∀ m, air = JObj m → m !! "list" = Some (JArr []) →
        air_components air = inl IndexError) ∧
  (∀ m x rest, air = JObj m → m !! "list" = Some (JArr (JObj x :: rest)) →
               x !! "components" = None →
               air_components air = inl (KeyError (JStr "components"))).
Proof.
  split; [split |].
  - unfold air_components, py_getitem, py_getitem0. intros H.
    destruct air as [| | | | | |m]; try discriminate.
    destruct (m !! "list") as [[| | | |s|[|[| | | | | |x] rest]|m']|] eqn:Hl;
      try discriminate; try (by destruct s).
    destruct (x !! "components") as [v'|] eqn:Hc; [| discriminate].
    injection H as <-. by exists m, x, rest.
  - intros (m & x & rest & -> & Hl & Hc).
    unfold air_components, py_getitem, py_getitem0. by rewrite Hl, Hc.
  - split; [| split].
    + intros m -> Hl. unfold air_components, py_getitem. by rewrite Hl.
    + intros m -> Hl. unfold air_components, py_getitem, py_getitem0.
      by rewrite Hl.
    + intros m x rest -> Hl Hc. unfold air_components, py_getitem, py_getitem0.
      by rewrite Hl, Hc.
Qed.

Lemma air_components_iff_witness :
  air_components (demo_air_data demo_components) = inr (JObj demo_components) ∧
  air_components (JObj ∅) = inl (KeyError (JStr "list")) ∧
  air_components (JObj {[ "list" := JArr [] ]}) = inl IndexError.
Proof.
  split; [| split].
  - apply (proj1 (air_components_iff (demo_air_data demo_components)
                    (JObj demo_components))).
    by exists {[ "list" := JArr [JObj {[ "components" := JObj demo_components ]}] ]},
              {[ "components" := JObj demo_components ]}, [].
  - by apply (proj1 (proj2 (air_components_iff (JObj ∅) JNull)) ∅).
  - by apply (proj1 (proj2 (proj2 (air_components_iff
                                     (JObj {[ "list" := JArr [] ]}) JNull)))
                {[ "list" := JArr [] ]}).
Defined.

Section KeySet.

(** The API key is set and not empty. *)
Context (a : artifacts) (w : world) (key : string).
Hypothesis key_set : getenv_api_key w = Some key.
Hypothesis key_nonempty : key ≠ "".

Lemma get_live_aqi_with_key :
  get_live_aqi a w
  = try_except
      (resp ← (_ ← emit (EvHttpGet (live_url key));
               lift (requests_get w (live_url key)));
       if bool_decide (status_code resp ≠ 200)
       then mret (error_response 500 "Failed to fetch live data")
       else
         air_data ← lift (json resp);
         pollutants ← lift (air_components air_data);
         data ← prediction_data pollutants;
         prediction_response ← predict_aqi_internal a w (JObj data);
         mret (jsonify (<["components" := pollutants]> prediction_response)))
      (λ e, error_response 500 ("Live AQI fetch failed: " +:+ exn_str w e)).
Proof.
  unfold get_live_aqi. rewrite key_set.
  by destruct key as [|ch key'].
Qed.

(** X9. With a key, every failure to obtain the components is answered
    with 500 and [Live AQI fetch failed: ] followed by the text of the
    exception, after the one request and without any coercion or call to the
    classifier: the client raising, the body of a 200 not being JSON, the
    payload lacking [list[0].components], or its components not being an
    object. *)
Theorem live_fetch_failures :
  let failed e :=
    get_live_aqi a w
    = (error_response 500 ("Live AQI fetch failed: " +:+ exn_str w e),
       [EvHttpGet (live_url key)]) in
  (∀ e, requests_get w (live_url key) = inl e → failed e) ∧
  (∀ resp e,
     requests_get w (live_url key) = inr resp → status_code resp = 200 →
     json resp = inl e → failed e) ∧
  (∀ resp air e,
     requests_get w (live_url key) = inr resp → status_code resp = 200 →
     json resp = inr air → air_components air = inl e → failed e) ∧
  (∀ resp air v,
     requests_get w (live_url key) = inr resp → status_code resp = 200 →
     json resp = inr air → air_components air = inr v → is_object v = false →
     failed (AttributeError (py_type_name v) "get")).
Proof.
  cbv zeta. rewrite get_live_aqi_with_key.
  unfold try_except, mbind, M_bind, lift, emit.
  split; [| split; [| split]].
  - intros e He. by rewrite He.
  - intros resp e Hget Hst Hjson.
    by rewrite Hget, Hst, bool_decide_eq_false_2, Hjson by (intros H; by apply H).
  - intros resp air e Hget Hst Hjson Hcomp.
    by rewrite Hget, Hst, bool_decide_eq_false_2, Hjson, Hcomp
      by (intros H; by apply H).
  - intros resp air v Hget Hst Hjson Hcomp Hobj.
    rewrite Hget, Hst, bool_decide_eq_false_2, Hjson, Hcomp
      by (intros H; by apply H).
    by destruct v.
Qed.

End KeySet.

Lemma live_fetch_failures_witness :
  get_live_aqi sk_artifacts (client_world (λ _, inl (Raised "Connection refused")))
  = (error_response 500
       ("Live AQI fetch failed: " +:+ demo_exn_str (Raised "Connection refused")),
     [EvHttpGet (live_url "k")]) ∧
  get_live_aqi sk_artifacts
    (client_world (answer_200 (inr (JObj {[ "list" := JArr [] ]}))))
  = (error_response 500 ("Live AQI fetch failed: " +:+ demo_exn_str IndexError),
     [EvHttpGet (live_url "k")]).
Proof.
  split.
  - apply (proj1 (live_fetch_failures sk_artifacts
                    (client_world (λ _, inl (Raised "Connection refused"))) "k"
                    eq_refl ltac:(done)) (Raised "Connection refused")).
    reflexivity.
  - apply (proj1 (proj2 (proj2 (live_fetch_failures sk_artifacts
             (client_world (answer_200 (inr (JObj {[ "list" := JArr [] ]}))))
             "k" eq_refl ltac:(done))))
             {| status_code := 200; json := inr (JObj {[ "list" := JArr [] ]}) |}
             (JObj {[ "list" := JArr [] ]}) IndexError); reflexivity.
Defined.

Ltac canonical_entry H :=
  split; [compute_done |];
  rewrite ?lookup_insert_ne by done; rewrite lookup_insert_eq;
  by rewrite H.

Lemma provider_field_canonical (c : gmap string jvalue) (k : string) (v : jvalue) :
  k ∈ provider_fields → c !! k = Some v →
  ∃ k', k' ∈ required_fields ∧ canonical_vector c !! k' = Some v.
Proof.
  intros Hk Hv. unfold provider_fields in Hk. unfold canonical_vector. cbn.
  apply elem_of_cons in Hk as [->|Hk]; [exists "pm25"; canonical_entry Hv |].
  apply elem_of_cons in Hk as [->|Hk]; [exists "pm10"; canonical_entry Hv |].
  apply elem_of_cons in Hk as [->|Hk]; [exists "no2"; canonical_entry Hv |].
  apply elem_of_cons in Hk as [->|Hk]; [exists "so2"; canonical_entry Hv |].
  apply elem_of_cons in Hk as [->|Hk]; [exists "co"; canonical_entry Hv |].
  apply elem_of_cons in Hk as [->|Hk]; [exists "o3"; canonical_entry Hv |].
  by apply elem_of_nil in Hk.
Qed.

Section AfterFetch.

(** The key is set, the provider has answered 200, and the payload has
    [list[0].components], an object. *)
Context (a : artifacts) (w : world) (key : string) (resp : http_response).
Context (air : jvalue) (c : gmap string jvalue).
Hypothesis key_set : getenv_api_key w = Some key.
Hypothesis key_nonempty : key ≠ "".
Hypothesis fetched : requests_get w (live_url key) = inr resp.
Hypothesis status_ok : status_code resp = 200.
Hypothesis body_parsed : json resp = inr air.
Hypothesis has_components : air_components air = inr (JObj c).

Lemma get_live_aqi_after_fetch :
  get_live_aqi a w
  = match prediction_dict a w (JObj (canonical_vector c))
            [EvHttpGet (live_url key)] with
    | (inr d, tr) => (jsonify (<["components" := JObj c]> d), tr)
    | (inl e, tr) =>
        (jsonify (<["components" := JObj c]>
                    (error_dict ("Internal prediction failed: " +:+ exn_str w e))),
         tr)
    end.
Proof.
  rewrite (get_live_aqi_fetched w key resp air c key_set key_nonempty fetched
             status_ok body_parsed has_components a).
  rewrite predict_aqi_internal_catches.
  by destruct (prediction_dict a w _ _) as [[e|d] tr].
Qed.

(** X10. Once the components were obtained, the live handler always answers
    200.  Its body is the dictionary of the helper, either the one [error]
    entry or the ten entries of a prediction, plus [components], the
    provider's object as it came; no entry of the helper is overwritten. *)
Theorem live_after_fetch_is_200 :
  ∃ d,
    (get_live_aqi a w).1 = jsonify (<["components" := JObj c]> d) ∧
    status (get_live_aqi a w).1 = 200 ∧
    py_getitem (body (get_live_aqi a w).1) "components" = inr (JObj c) ∧
    d !! "components" = None ∧
    (∀ k, k ≠ "components" →
          py_getitem (body (get_live_aqi a w).1) k = py_getitem (JObj d) k) ∧
    ((∃ e, d = error_dict ("Internal prediction failed: " +:+ exn_str w e)) ∨
     (∃ l conf info p,
        d = success_dict l (get_aqi_value_from_class l) conf info
              (pollutants_dict p) (clock_now w) ∧
        AQI_INFO_get l = inr info)).
Proof.
  rewrite get_live_aqi_after_fetch.
  unfold prediction_dict, mbind, M_bind.
  assert (∀ d : gmap string jvalue,
            d !! "components" = None →
            jsonify (<["components" := JObj c]> d)
            = jsonify (<["components" := JObj c]> d) ∧
            status (jsonify (<["components" := JObj c]> d)) = 200 ∧
            py_getitem (body (jsonify (<["components" := JObj c]> d))) "components"
            = inr (JObj c) ∧
            d !! "components" = None ∧
            (∀ k, k ≠ "components" →
                  py_getitem (body (jsonify (<["components" := JObj c]> d))) k
                  = py_getitem (JObj d) k)) as Hmerge.
  { intros d Hd. split; [done |]. split; [done |]. cbn.
    rewrite lookup_insert_eq. split; [done |]. split; [done |].
    intros k Hk. by rewrite lookup_insert_ne. }
  destruct (extract_pollutants w _ _) as [[e|p] tr0].
  { exists (error_dict ("Internal prediction failed: " +:+ exn_str w e)).
    cbn [fst].
    destruct (Hmerge (error_dict ("Internal prediction failed: " +:+ exn_str w e)))
      as (? & ? & ? & ? & ?); [done |].
    repeat (split; [done |]). left. by exists e. }
  pose proof (classify_features_spec a w p tr0) as Hcs. cbv zeta in Hcs.
  destruct (classify_features a w p tr0) as [[e|d] tr].
  { exists (error_dict ("Internal prediction failed: " +:+ exn_str w e)).
    cbn [fst].
    destruct (Hmerge (error_dict ("Internal prediction failed: " +:+ exn_str w e)))
      as (? & ? & ? & ? & ?); [done |].
    repeat (split; [done |]). left. by exists e. }
  destruct Hcs as (cl & le & y & ys & r0 & rs0 & l & ls & row & rows & mx & info
                   & _ & _ & _ & _ & _ & _ & _ & Hinfo & -> & _).
  eexists. cbn [fst].
  destruct (Hmerge (success_dict l (get_aqi_value_from_class l)
                      (reported_confidence w mx) info (pollutants_dict p)
                      (clock_now w)))
    as (? & ? & ? & ? & ?).
  { apply success_dict_lookups. }
  repeat (split; [done |]). right. by exists l, (reported_confidence w mx), info, p.
Qed.

(** X11. With a classifier that validates its input as scikit-learn does,
    the live handler never returns a prediction: once the components were
    obtained, its answer is a 200 whose body is an [error] entry and the
    components (the wrapped matrix of line 219). *)
Theorem live_never_predicts (cl : classifier) :
  model a = Some cl → accepts_only_2d cl →
  ∃ e tr,
    get_live_aqi a w
    = (jsonify (<["components" := JObj c]>
                  (error_dict ("Internal prediction failed: " +:+ exn_str w e))),
       tr) ∧
    py_getitem (body (get_live_aqi a w).1) "success"
    = inl (KeyError (JStr "success")).
Proof.
  intros Hm Hacc. rewrite get_live_aqi_after_fetch.
  unfold prediction_dict, mbind, M_bind.
  destruct (extract_pollutants w _ _) as [[e|p] tr0]; [by exists e, tr0 |].
  destruct (classify_features_rejected a w cl p tr0 Hm Hacc) as (e & tr & ->).
  by exists e, tr.
Qed.

(** X12. The default 0 is for fields that are absent only.  When a field of
    the provider is present with a value that [float] refuses ([null], a
    list, a string that is not a number, an integer beyond the range of a
    double), nothing is replaced: the answer is a 200 with the [error] entry
    made from the exception that [float] raised for the first refused entry
    of the canonical vector, in the order of the six fields.  Every field
    before it was coerced, one coercion each, nothing after it was looked
    at, and the classifier is not called. *)
Theorem live_present_field_not_defaulted (k : string) (v : jvalue) (e : pyexn) :
  k ∈ provider_fields → c !! k = Some v → py_float w v = inl e →
  ∃ pre k' post v' evs,
    required_fields = pre ++ k' :: post ∧
    Forall (coercible_at w (canonical_vector c)) pre ∧
    canonical_vector c !! k' = Some v' ∧
    py_float w v' = inl (float_exn v') ∧
    get_live_aqi a w
    = (jsonify (<["components" := JObj c]>
                  (error_dict ("Internal prediction failed: "
                               +:+ exn_str w (float_exn v')))),
       EvHttpGet (live_url key) :: evs ++ [EvFloat v']) ∧
    coerced_in_order (canonical_vector c) pre evs ∧
    Forall (λ ev, is_float_event ev = true) evs.
Proof.
  intros Hk Hv He.
  destruct (provider_field_canonical c k v Hk Hv) as (k0 & Hk0 & Hcv).
  rewrite get_live_aqi_after_fetch.
  unfold prediction_dict, mbind, M_bind.
  pose proof (extract_pollutants_first_refused w (canonical_vector c)
                [EvHttpGet (live_url key)] (canonical_vector_present c)) as Hfr.
  destruct (extract_pollutants w _ _) as [[e'|p] tr0].
  - destruct Hfr as (pre & k' & post & v' & evs & Hsplit & Hpre & Hv' & Hf & ->
                     & Hevs).
    apply py_float_exn in Hf as Hf'. subst e'.
    exists pre, k', post, v', evs. cbn [app].
    repeat (split; [done |]).
    exact (coerced_in_order_float_events _ pre evs Hevs).
  - exfalso.
    destruct (proj1 (Forall_forall _ _) Hfr k0 Hk0) as (v' & q & Hv' & Hq).
    congruence.
Qed.

End AfterFetch.

Lemma live_after_fetch_is_200_witness :
  ∃ d,
    (get_live_aqi lenient_artifacts
       (client_world (answer_200 (inr (demo_air_data demo_components))))).1
    = jsonify (<["components" := JObj demo_components]> d) ∧
    d !! "aqi_class" = Some (JStr "Hazardous") ∧
    d !! "components" = None.
Proof.
  destruct (live_after_fetch_is_200 lenient_artifacts
              (client_world (answer_200 (inr (demo_air_data demo_components))))
              "k" {| status_code := 200;
                     json := inr (demo_air_data demo_components) |}
              (demo_air_data demo_components) demo_components
              eq_refl ltac:(done) eq_refl eq_refl eq_refl eq_refl)
    as (d & Heq & _ & _ & Hnone & _ & _).
  exists d. split; [exact Heq |]. split; [| exact Hnone].
  assert (JObj (<["components" := JObj demo_components]> d)
          = body (get_live_aqi lenient_artifacts
                    (client_world
                       (answer_200 (inr (demo_air_data demo_components))))).1)
    as Hb by (by rewrite Heq).
  assert (py_getitem (JObj (<["components" := JObj demo_components]> d)) "aqi_class"
          = inr (JStr "Hazardous")) as Hget.
  { rewrite Hb. vm_compute. reflexivity. }
  cbn in Hget. rewrite lookup_insert_ne in Hget by done.
  by destruct (d !! "aqi_class"); simplify_eq.
Defined.

Lemma live_never_predicts_witness :
  ∃ e tr,
    get_live_aqi sk_artifacts
      (client_world (answer_200 (inr (demo_air_data demo_components))))
    = (jsonify (<["components" := JObj demo_components]>
                  (error_dict ("Internal prediction failed: " +:+ demo_exn_str e))),
       tr) ∧
    py_getitem (body (get_live_aqi sk_artifacts
                        (client_world
                           (answer_200 (inr (demo_air_data demo_components))))).1)
      "success"
    = inl (KeyError (JStr "success")).
Proof.
  apply (live_never_predicts sk_artifacts
           (client_world (answer_200 (inr (demo_air_data demo_components))))
           "k" {| status_code := 200;
                  json := inr (demo_air_data demo_components) |}
           (demo_air_data demo_components) demo_components
           eq_refl ltac:(done) eq_refl eq_refl eq_refl eq_refl sk_classifier
           eq_refl sk_classifier_accepts_only_2d).
Defined.

Lemma live_present_field_not_defaulted_witness :
  ∃ pre k' post v' evs,
    required_fields = pre ++ k' :: post ∧
    Forall (coercible_at
              (client_world (answer_200 (inr (demo_air_data demo_null_components))))
              (canonical_vector demo_null_components)) pre ∧
    canonical_vector demo_null_components !! k' = Some v' ∧
    py_float (client_world
                (answer_200 (inr (demo_air_data demo_null_components)))) v'
    = inl (float_exn v') ∧
    get_live_aqi lenient_artifacts
      (client_world (answer_200 (inr (demo_air_data demo_null_components))))
    = (jsonify (<["components" := JObj demo_null_components]>
                  (error_dict ("Internal prediction failed: "
                               +:+ demo_exn_str (float_exn v')))),
       EvHttpGet (live_url "k") :: evs ++ [EvFloat v']) ∧
    coerced_in_order (canonical_vector demo_null_components) pre evs ∧
    Forall (λ ev, is_float_event ev = true) evs.
Proof.
  apply (live_present_field_not_defaulted lenient_artifacts
           (client_world (answer_200 (inr (demo_air_data demo_null_components))))
           "k" {| status_code := 200;
                  json := inr (demo_air_data demo_null_components) |}
           (demo_air_data demo_null_components) demo_null_components
           eq_refl ltac:(done) eq_refl eq_refl eq_refl eq_refl
           "co" JNull (TypeError_float "NoneType")).
  - compute_done.
  - reflexivity.
  - reflexivity.
Defined.

(** The first refused entry is the one reported: with an integer beyond the
    range of a double under [pm2_5] and [null] under [co], the message is
    that of the overflow, after one coercion. *)
Lemma live_overflow_run :
  get_live_aqi lenient_artifacts
    (client_world
       (answer_200
          (inr (demo_air_data
                  (<["pm2_5" := JInt (10 ^ 400)]> demo_null_components)))))
  = (jsonify (<["components" :=
                  JObj (<["pm2_5" := JInt (10 ^ 400)]> demo_null_components)]>
                (error_dict
                   "Internal prediction failed: int too large to convert to float")),
     [EvHttpGet (live_url "k"); EvFloat (JInt (10 ^ 400))]).
Proof. vm_compute. reflexivity. Qed.

(** The calls of the inference: coercions first, then the classifier. *)
Lemma prediction_dict_trace (a : artifacts) (w : world) (data : jvalue)
    (tr : list event) :
  ∃ fl cl,
    (prediction_dict a w data tr).2 = tr ++ fl ++ cl ∧
    Forall (λ ev, is_float_event ev = true) fl ∧
    Forall (λ ev, is_classifier_event ev = true) cl.
Proof.
  unfold prediction_dict, mbind, M_bind.
  pose proof (extract_pollutants_spec w data tr) as Hes.
  destruct (extract_pollutants w data tr) as [[e|p] tr0].
  - destruct Hes as (evs & -> & Hfl & _).
    exists evs, []. by rewrite app_nil_r.
  - destruct Hes as (v1 & v2 & v3 & v4 & v5 & v6 & _ & _ & _ & _ & _ & _ & _ & _
                     & _ & _ & _ & _ & ->).
    pose proof (classify_features_spec a w p
                  (tr ++ [EvFloat v1; EvFloat v2; EvFloat v3; EvFloat v4;
                          EvFloat v5; EvFloat v6])) as Hcs.
    cbv zeta in Hcs.
    destruct (classify_features a w p _) as [[e|d] tr1].
    + destruct Hcs as (evs & -> & Hcl & _).
      exists [EvFloat v1; EvFloat v2; EvFloat v3; EvFloat v4; EvFloat v5; EvFloat v6],
             evs.
      rewrite <- app_assoc. split; [done |]. split; [by repeat constructor | done].
    + destruct Hcs as (c & le & y & ys & r0 & rs0 & l & ls & row & rows & mx & info
                       & _ & _ & _ & _ & _ & _ & _ & _ & _ & ->).
      eexists [EvFloat v1; EvFloat v2; EvFloat v3; EvFloat v4; EvFloat v5;
               EvFloat v6], _.
      rewrite <- app_assoc. split; [reflexivity |].
      split; by repeat constructor.
Qed.

(** X13. [/live-aqi] answers with 200 or 500 and nothing else.  A 500 has
    one [error] entry and comes before any coercion or classification:
    either nothing was called or the one request was sent.  A 200 comes
    after exactly one request, sent first, to the fixed URL with the key,
    followed by coercions and then calls to the classifier; there is no
    second request. *)
Theorem get_live_aqi_outcomes (a : artifacts) (w : world) :
  let r := (get_live_aqi a w).1 in
  let tr := (get_live_aqi a w).2 in
  (status r = 200 ∨ status r = 500) ∧
  (status r = 500 →
   is_error_body (body r) ∧
   (tr = [] ∨ ∃ key, getenv_api_key w = Some key ∧ tr = [EvHttpGet (live_url key)])) ∧
  (status r = 200 →
   ∃ key fl cl c,
     getenv_api_key w = Some key ∧ key ≠ "" ∧
     tr = EvHttpGet (live_url key) :: fl ++ cl ∧
     Forall (λ ev, is_float_event ev = true) fl ∧
     Forall (λ ev, is_classifier_event ev = true) cl ∧
     py_getitem (body r) "components" = inr (JObj c)).
Proof.
  cbv zeta.
  destruct (get_live_aqi_cases a w)
    as [[_ Heq] | (key & Hkey & Hne & [(e & _ & Heq) | (resp & _ &
         [(_ & Heq) | (_ & [(e & _ & Heq) | (air & _ &
           [(e & _ & Heq) | [(v & _ & _ & Heq) | (c & _ & Heq)]])])])])];
    rewrite Heq; clear Heq;
    try (split; [by right |]; split; [| discriminate]; intros _;
         split; [by eexists |]; first [by left | right; by exists key]).
  rewrite predict_aqi_internal_catches.
  destruct (prediction_dict_trace a w (JObj (canonical_vector c))
              [EvHttpGet (live_url key)]) as (fl & cl & Htr & Hfl & Hcl).
  destruct (prediction_dict a w _ _) as [[e|d] tr]; cbn in Htr; subst tr;
    (split; [by left |]; split; [discriminate |]; intros _;
     exists key, fl, cl, c; cbn; rewrite lookup_insert_eq; by repeat split).
Qed.

(** ** Start-up *)

(** X15. The three artifacts are loaded together or not at all: after
    start-up either all three are set, and then they are the three objects
    read, or one load raised and all three are [None].  In the second case
    every request to [/predict], whatever its body, is answered with the 500
    of the guard before anything is read or called. *)
Theorem startup_all_or_nothing (m : pyexn + classifier)
    (le : pyexn + label_decoder) (fn : pyexn + list string) (w : world) :
  (∃ c d names,
     m = inr c ∧ le = inr d ∧ fn = inr names ∧
     load_models m le fn
     = {| model := Some c; label_encoder := Some d; feature_names := Some names |}) ∨
  (load_failed m le fn ∧
   load_models m le fn
   = {| model := None; label_encoder := None; feature_names := None |} ∧
   ∀ request_json,
     predict_aqi (load_models m le fn) w request_json
     = (error_response 500 "ML models not loaded properly", [])).
Proof.
  destruct m as [e|c].
  { right. assert (load_failed (inl e) le fn) as H by (left; eauto).
    split; [done |]. split; [by apply load_failed_none |].
    intros req. by rewrite (load_failed_none _ _ _ H). }
  destruct le as [e|d].
  { right. assert (load_failed (inr c) (inl e) fn) as H by (right; left; eauto).
    split; [done |]. split; [by apply load_failed_none |].
    intros req. by rewrite (load_failed_none _ _ _ H). }
  destruct fn as [e|names].
  { right. assert (load_failed (inr c) (inr d) (inl e)) as H by (right; right; eauto).
    split; [done |]. split; [by apply load_failed_none |].
    intros req. by rewrite (load_failed_none _ _ _ H). }
  left. by exists c, d, names.
Qed.
